(** * hypermodel.hml.hml_container_op: operation registration and argument binding

    A shallow embedding of [hml_container_op.py]: the process-wide
    "current pipeline" pointer with its one-slot backup, the constructor
    [HmlContainerOp.__init__] that turns a function and its keyword
    arguments into a command line, and the fluent configuration methods.

    Python objects with identity (pipelines, operations, kfp container
    operations, lists) live in typed stores and are named by their address;
    a method that mutates [self] updates the store at that address. *)

From Stdlib Require Import ZArith String Ascii.
From stdpp Require Import base list strings pretty.

Local Open Scope string_scope.
Local Open Scope list_scope.

(** ** Python values *)

(** Address of an object in one of the stores below. *)
Abbreviation loc := nat.

(** Values the source treats as plain data: [None], [bool], [int], [str]. *)
Inductive literal :=
| LNone
| LBool (b : bool)
| LInt (z : Z)
| LStr (s : string).

(** Python's [str(v)] on those values. *)
Definition py_str (v : literal) : string :=
  match v with
  | LNone => "None"
  | LBool true => "True"
  | LBool false => "False"
  | LInt z => pretty z
  | LStr s => s
  end.

(** ** Reading a decimal numeral back

    What a numeral denotes, defined on its own: a numeral is ["0"], or a
    digit other than [0] followed by digits, or a minus sign followed by
    such digits.  Leading zeros, ["-0"], signs other than the minus, spaces
    and the empty string denote nothing. *)

Definition digit_value (c : ascii) : option N :=
  let n := N_of_ascii c in
  if ((48 <=? n) && (n <=? 57))%N then Some (n - 48)%N else None.

(** The digits of [s] read from the left, continuing the number [acc]. *)
Fixpoint read_digits (acc : N) (s : string) : option N :=
  match s with
  | EmptyString => Some acc
  | String c s' =>
      match digit_value c with
      | Some d => read_digits (acc * 10 + d) s'
      | None => None
      end
  end.

Definition read_natural (s : string) : option N :=
  match s with
  | EmptyString => None
  | String c s' =>
      if decide (c = "0"%char)
      then (if decide (s' = EmptyString) then Some 0%N else None)
      else read_digits 0 s
  end.

Definition read_decimal (s : string) : option Z :=
  match s with
  | EmptyString => None
  | String c s' =>
      if decide (c = "-"%char)
      then match read_natural s' with
           | Some (Npos p) => Some (Zneg p)
           | _ => None
           end
      else Z.of_N <$> read_natural s
  end.

(** [d] is the string form of [v]: the words [None], [True] and [False],
    the numeral that denotes an integer, and a string as it is. *)
Definition string_form (v : literal) (d : string) : Prop :=
  match v with
  | LNone => d = "None"
  | LBool true => d = "True"
  | LBool false => d = "False"
  | LInt z => read_decimal d = Some z
  | LStr s => d = s
  end.

(** [kfp.dsl.PipelineParam(name, op_name=None, value=None)], a plain record
    of the fields the source passes. *)
Record PipelineParam := mkPipelineParam {
  pp_name : string;
  pp_op_name : option string;
  pp_value : option literal
}.

(** What a keyword argument can hold.  The constructor is the outcome of
    the two [isinstance] tests of the source: a [dsl.PipelineParam], a
    [dsl.ContainerOp] (by address), or anything else. *)
Inductive value :=
| VPipelineParam (p : PipelineParam)
| VContainerOp (l : loc)
| VLit (v : literal).

(** One element of an argument list: the source appends strings, and in
    the pipeline-parameter branch the parameter object itself. *)
Inductive arg :=
| ArgStr (s : string)
| ArgParam (p : PipelineParam).

(** A Python [dict] with [str] keys: entries in insertion order. *)
Abbreviation dict := (list (string * value)).

Definition dict_keys (d : dict) : list string := d.*1.

(** [d[k]]: the value stored under [k], if any. *)
Fixpoint dict_get (d : dict) (k : string) : option value :=
  match d with
  | [] => None
  | (k', v) :: d' => if decide (k' = k) then Some v else dict_get d' k
  end.

(** [d[k] = v]: overwrite in place when the key is present, otherwise add
    at the end. *)
Fixpoint dict_set (d : dict) (k : string) (v : value) : dict :=
  match d with
  | [] => [(k, v)]
  | (k', v') :: d' =>
      if decide (k' = k) then (k', v) :: d' else (k', v') :: dict_set d' k v
  end.

(** Keys of a [dict] are pairwise distinct. *)
Definition dict_wf (d : dict) : Prop := NoDup (dict_keys d).

(** ** Kubernetes client models (plain records) *)

Inductive volume_source :=
| V1SecretVolumeSource (secret_name : string)
| V1EmptyDirVolumeSource.

Record V1Volume := mkV1Volume { vol_name : string; vol_source : volume_source }.
Record V1VolumeMount := mkV1VolumeMount { vm_name : string; vm_mount_path : string }.
Record V1EnvVar := mkV1EnvVar { env_name : string; env_value : string }.

(** ** Objects *)

(** [kfp.dsl.ContainerOp]: the attributes the source reads or writes.
    [co_image], [co_env] and [co_volume_mounts] belong to [op.container]. *)
Record ContainerOp := mkContainerOp {
  co_name : string;
  co_image : string;
  co_command : string;
  co_arguments : loc;
  co_inputs : option loc;
  co_hml_op : option loc;
  co_volumes : list V1Volume;
  co_volume_mounts : list V1VolumeMount;
  co_env : list V1EnvVar
}.

(** The wrapped Python function: only [__name__] is read. *)
Record pyfunc := mkPyfunc { fn_name : string }.

(** [click.command(name=...)(func)]. *)
Record click_command := mkClickCommand { cmd_name : string; cmd_callback : pyfunc }.

Record HmlContainerOp := mkHmlContainerOp {
  func : pyfunc;
  name : string;
  k8s_name : string;
  kwargs : dict;
  pipeline : loc;
  inputs : loc;
  arguments : loc;
  op : loc;
  cli_command : click_command
}.

(** Modelled from the spec: the class [HmlPipeline]
    ([hypermodel.hml.hml_pipeline]) is not part of the sources at hand.  A
    pipeline is "a named workflow container; holds an ordered list of
    registered operations, an image reference, and an entrypoint command". *)
Record HmlPipeline := mkHmlPipeline {
  pl_name : string;
  image_url : string;
  package_entrypoint : string;
  ops_list : list loc
}.

(** ** Interpreter state *)

Inductive log_level := INFO | ERROR.

Record state := mkState {
  _current_pipeline : option loc;
  _old_pipeline : option loc;
  pipelines : list HmlPipeline;
  hml_ops : list HmlContainerOp;
  kfp_ops : list ContainerOp;
  arg_lists : list (list arg);
  param_lists : list (list PipelineParam);
  log : list (log_level * string)
}.

(** ** Outcomes and the state-and-exception monad *)

Inductive exn :=
| AttributeError (msg : string)
| KeyError (key : string).

(** [Dangling] is the outcome of reading through an address that holds no
    object; a running Python program cannot reach it. *)
Inductive result (A : Type) :=
| Ok (a : A)
| Raise (e : exn)
| Dangling.
Arguments Ok {A} a.
Arguments Raise {A} e.
Arguments Dangling {A}.

Definition M (A : Type) : Type := state -> state * result A.

Definition ret {A} (a : A) : M A := fun st => (st, Ok a).

Definition bind {A B} (m : M A) (k : A -> M B) : M B :=
  fun st =>
    match m st with
    | (st', Ok a) => k a st'
    | (st', Raise e) => (st', Raise e)
    | (st', Dangling) => (st', Dangling)
    end.

Definition raise {A} (e : exn) : M A := fun st => (st, Raise e).

Declare Scope py_scope.
Delimit Scope py_scope with py.
Notation "x <~ m ;; k" := (bind m (fun x => k))
  (at level 100, m at next level, right associativity) : py_scope.
Notation "m ;;; k" := (bind m (fun _ => k))
  (at level 100, right associativity) : py_scope.
Local Open Scope py_scope.

(** Dereference an address in a store. *)
Definition deref {A} (store : state -> list A) (l : loc) : M A :=
  fun st => match store st !! l with
            | Some x => (st, Ok x)
            | None => (st, Dangling)
            end.

Definition logging (lvl : log_level) (msg : string) : M unit :=
  fun st =>
    (mkState (_current_pipeline st) (_old_pipeline st) (pipelines st)
       (hml_ops st) (kfp_ops st) (arg_lists st) (param_lists st)
       (log st ++ [(lvl, msg)]), Ok tt).

Definition set_pointers (cur old : option loc) : M unit :=
  fun st =>
    (mkState cur old (pipelines st) (hml_ops st) (kfp_ops st)
       (arg_lists st) (param_lists st) (log st), Ok tt).

Definition get_current : M (option loc) := fun st => (st, Ok (_current_pipeline st)).
Definition get_old : M (option loc) := fun st => (st, Ok (_old_pipeline st)).

(** ** Pipeline activation *)

(** [_pipeline_enter(pipeline)]. *)
Definition _pipeline_enter (p : loc) : M unit :=
  pl <~ deref pipelines p ;;
  logging INFO ("_pipeline_enter: " +:+ pl_name pl) ;;;
  cur <~ get_current ;;
  set_pointers (Some p) cur.

(** [_pipeline_exit()]: the log line reads [_current_pipeline.name], which
    raises when no pipeline is current. *)
Definition _pipeline_exit : M unit :=
  cur <~ get_current ;;
  match cur with
  | None => raise (AttributeError "'NoneType' object has no attribute 'name'")
  | Some c =>
      pl <~ deref pipelines c ;;
      logging INFO ("_pipeline_exit: " +:+ pl_name pl) ;;;
      old <~ get_old ;;
      set_pointers old old
  end.

(** ** Store primitives *)

Definition set_pipelines (ps : list HmlPipeline) (st : state) : state :=
  mkState (_current_pipeline st) (_old_pipeline st) ps (hml_ops st)
    (kfp_ops st) (arg_lists st) (param_lists st) (log st).

Definition set_hml_ops (hs : list HmlContainerOp) (st : state) : state :=
  mkState (_current_pipeline st) (_old_pipeline st) (pipelines st) hs
    (kfp_ops st) (arg_lists st) (param_lists st) (log st).

Definition set_kfp_ops (cs : list ContainerOp) (st : state) : state :=
  mkState (_current_pipeline st) (_old_pipeline st) (pipelines st)
    (hml_ops st) cs (arg_lists st) (param_lists st) (log st).

Definition set_arg_lists (ls : list (list arg)) (st : state) : state :=
  mkState (_current_pipeline st) (_old_pipeline st) (pipelines st)
    (hml_ops st) (kfp_ops st) ls (param_lists st) (log st).

Definition set_param_lists (ls : list (list PipelineParam)) (st : state) : state :=
  mkState (_current_pipeline st) (_old_pipeline st) (pipelines st)
    (hml_ops st) (kfp_ops st) (arg_lists st) ls (log st).

(** A list display [[x; ...]] creates a new list object. *)
Definition new_arg_list (xs : list arg) : M loc :=
  fun st => (set_arg_lists (arg_lists st ++ [xs]) st, Ok (length (arg_lists st))).

Definition new_param_list (xs : list PipelineParam) : M loc :=
  fun st => (set_param_lists (param_lists st ++ [xs]) st, Ok (length (param_lists st))).

(** [l.append(x)] mutates the list object at [l]. *)
Definition append_arg (l : loc) (a : arg) : M unit :=
  xs <~ deref arg_lists l ;;
  fun st => (set_arg_lists (<[l := xs ++ [a]]> (arg_lists st)) st, Ok tt).

Definition append_param (l : loc) (p : PipelineParam) : M unit :=
  xs <~ deref param_lists l ;;
  fun st => (set_param_lists (<[l := xs ++ [p]]> (param_lists st)) st, Ok tt).

Definition new_kfp_op (c : ContainerOp) : M loc :=
  fun st => (set_kfp_ops (kfp_ops st ++ [c]) st, Ok (length (kfp_ops st))).

(** Attribute writes and mutating calls on the kfp operation at [l]. *)
Definition update_kfp_op (l : loc) (f : ContainerOp -> ContainerOp) : M unit :=
  c <~ deref kfp_ops l ;;
  fun st => (set_kfp_ops (<[l := f c]> (kfp_ops st)) st, Ok tt).

(** The address of the object under construction: [object.__new__] has
    run, the attributes are stored when [__init__] completes. *)
Definition new_object : M loc := fun st => (st, Ok (length (hml_ops st))).

Definition store_object (h : HmlContainerOp) : M unit :=
  fun st => (set_hml_ops (hml_ops st ++ [h]) st, Ok tt).

(** [d[k]] as an expression: [KeyError] when the key is absent. *)
Definition dict_getitem (d : dict) (k : string) : M value :=
  match dict_get d k with
  | Some v => ret v
  | None => raise (KeyError k)
  end.

(** [for x in xs: body(x)]. *)
Fixpoint for_each {A} (xs : list A) (body : A -> M unit) : M unit :=
  match xs with
  | [] => ret tt
  | x :: xs' => body x ;;; for_each xs' body
  end.

(** Setters of single [ContainerOp] attributes. *)
Definition co_set_image (v : string) (c : ContainerOp) : ContainerOp :=
  mkContainerOp (co_name c) v (co_command c) (co_arguments c) (co_inputs c)
    (co_hml_op c) (co_volumes c) (co_volume_mounts c) (co_env c).

Definition co_set_command (v : string) (c : ContainerOp) : ContainerOp :=
  mkContainerOp (co_name c) (co_image c) v (co_arguments c) (co_inputs c)
    (co_hml_op c) (co_volumes c) (co_volume_mounts c) (co_env c).

Definition co_set_arguments (v : loc) (c : ContainerOp) : ContainerOp :=
  mkContainerOp (co_name c) (co_image c) (co_command c) v (co_inputs c)
    (co_hml_op c) (co_volumes c) (co_volume_mounts c) (co_env c).

Definition co_set_inputs (v : loc) (c : ContainerOp) : ContainerOp :=
  mkContainerOp (co_name c) (co_image c) (co_command c) (co_arguments c)
    (Some v) (co_hml_op c) (co_volumes c) (co_volume_mounts c) (co_env c).

Definition co_set_hml_op (v : loc) (c : ContainerOp) : ContainerOp :=
  mkContainerOp (co_name c) (co_image c) (co_command c) (co_arguments c)
    (co_inputs c) (Some v) (co_volumes c) (co_volume_mounts c) (co_env c).

(** [op.add_volume(v)], [op.add_volume_mount(m)] and
    [op.container.add_env_variable(e)] of kfp each append to a list. *)
Definition add_volume (v : V1Volume) (c : ContainerOp) : ContainerOp :=
  mkContainerOp (co_name c) (co_image c) (co_command c) (co_arguments c)
    (co_inputs c) (co_hml_op c) (co_volumes c ++ [v]) (co_volume_mounts c)
    (co_env c).

Definition add_volume_mount (m : V1VolumeMount) (c : ContainerOp) : ContainerOp :=
  mkContainerOp (co_name c) (co_image c) (co_command c) (co_arguments c)
    (co_inputs c) (co_hml_op c) (co_volumes c) (co_volume_mounts c ++ [m])
    (co_env c).

Definition add_env_variable (e : V1EnvVar) (c : ContainerOp) : ContainerOp :=
  mkContainerOp (co_name c) (co_image c) (co_command c) (co_arguments c)
    (co_inputs c) (co_hml_op c) (co_volumes c) (co_volume_mounts c)
    (co_env c ++ [e]).

(** Modelled from the spec: [HmlPipeline._add_op] is not part of the
    sources at hand; "registration always appends to the pipeline's
    operation list". *)
Definition _add_op (p : loc) (self : loc) : M unit :=
  pl <~ deref pipelines p ;;
  fun st =>
    (set_pipelines
       (<[p := mkHmlPipeline (pl_name pl) (image_url pl)
                 (package_entrypoint pl) (ops_list pl ++ [self])]>
          (pipelines st)) st, Ok tt).

(** Modelled from the spec: [hypermodel.utilities.k8s.sanitize_k8s_name] is
    not part of the sources at hand.  The glossary asks for "a string safe
    for use as a cluster resource name" and the scenario of the spec maps
    [prev_op] to [prev-op]: letters are lowered, and every character other
    than a lowercase letter, a digit or a dash becomes a dash.  The
    development is parametric in the sanitizer; this instance serves the
    worked examples. *)
Definition sanitize_char (c : ascii) : ascii :=
  let n := nat_of_ascii c in
  if (65 <=? n)%nat && (n <=? 90)%nat then ascii_of_nat (n + 32)
  else if (97 <=? n)%nat && (n <=? 122)%nat then c
  else if (48 <=? n)%nat && (n <=? 57)%nat then c
  else "-"%char.

Fixpoint sanitize_demo (s : string) : string :=
  match s with
  | EmptyString => EmptyString
  | String c s' => String (sanitize_char c) (sanitize_demo s')
  end.

(** A stand-in for [kfp.gcp.use_gcp_secret] in the worked examples: the
    secret volume, its mount, and the credentials variable. *)
Definition use_gcp_secret_demo (secret_name : string) (c : ContainerOp) : ContainerOp :=
  add_env_variable
    (mkV1EnvVar "GOOGLE_APPLICATION_CREDENTIALS"
       ("/secret/gcp-credentials/" +:+ secret_name +:+ ".json"))
    (add_volume_mount
       (mkV1VolumeMount ("gcp-credentials-" +:+ secret_name) "/secret/gcp-credentials")
       (add_volume
          (mkV1Volume ("gcp-credentials-" +:+ secret_name)
             (V1SecretVolumeSource secret_name)) c)).

(** Every kfp operation a keyword argument refers to is in the store. *)
Definition value_live (kfp : list ContainerOp) (v : value) : bool :=
  match v with
  | VContainerOp c => bool_decide (c < length kfp)
  | _ => true
  end.

Definition kwargs_live (kfp : list ContainerOp) (kw : dict) : bool :=
  forallb (fun e => value_live kfp e.2) kw.

(** ** A worked configuration: pipeline [demo] with one earlier operation *)

Definition demo_pipeline : HmlPipeline :=
  mkHmlPipeline "demo" "gcr.io/demo/titanic:latest" "titanic" [].

Definition other_pipeline : HmlPipeline :=
  mkHmlPipeline "other" "gcr.io/demo/other:latest" "other" [].

Definition prev_kfp_op : ContainerOp :=
  mkContainerOp "prev_op" "gcr.io/demo/titanic:latest" "titanic" 0 None None
    [] [] [].

(** [demo] is current and holds nothing yet. *)
Definition demo_state : state :=
  mkState (Some 0) None [demo_pipeline; other_pipeline] [] [prev_kfp_op]
    [[ArgStr "pipelines"; ArgStr "demo"; ArgStr "prev_op"]] [] [].

(** No pipeline has been entered. *)
Definition idle_state : state :=
  mkState None None [demo_pipeline; other_pipeline] [] [] [] [] [].

Definition train : pyfunc := mkPyfunc "train".

Definition rounds_param : PipelineParam := mkPipelineParam "rounds" None None.

Definition demo_kwargs : dict :=
  [("data", VLit (LStr "s3://bucket/x"));
   ("model_params", VContainerOp 0);
   ("rounds", VPipelineParam rounds_param)].

(** Keyword arguments that refer to no other operation. *)
Definition literal_kwargs : dict :=
  [("data", VLit (LStr "s3://bucket/x")); ("rounds", VLit (LInt 25))].

(** A second kfp operation that carries the name of [prev_kfp_op]. *)
Definition twin_kfp_op : ContainerOp :=
  mkContainerOp "prev_op" "gcr.io/demo/other:latest" "other" 0 None None
    [] [] [].

Definition twin_state : state :=
  mkState (Some 0) None [demo_pipeline; other_pipeline] []
    [prev_kfp_op; twin_kfp_op]
    [[ArgStr "pipelines"; ArgStr "demo"; ArgStr "prev_op"]] [] [].

(** A stand-in for calling a wrapped function: it reports how many keyword
    arguments it was given. *)
Definition call_demo (f : pyfunc) (kw : dict) : M nat := ret (length kw).

(** [demo_state] after [train] has been registered with [demo_kwargs]. *)
Definition train_op : HmlContainerOp :=
  mkHmlContainerOp train "train" "train" demo_kwargs 0 0 1 1
    (mkClickCommand "train" train).

Definition train_kfp_op : ContainerOp :=
  mkContainerOp "train" "gcr.io/demo/titanic:latest" "titanic" 1 (Some 0)
    (Some 0) [] [] [].

Definition train_arguments : list arg :=
  [ArgStr "pipelines"; ArgStr "demo"; ArgStr "train";
   ArgStr "--data"; ArgStr "{{inputs.parameters.data}}";
   ArgStr "--model_params";
   ArgStr "{{tasks.prev-op.outputs.parameters.model_params}}";
   ArgStr "--rounds"; ArgParam rounds_param].

Definition train_inputs : list PipelineParam :=
  [mkPipelineParam "data" None (Some (LStr "s3://bucket/x"));
   mkPipelineParam "model_params" (Some "prev-op") None;
   rounds_param].

Definition trained_state : state :=
  mkState (Some 0) None
    [mkHmlPipeline "demo" "gcr.io/demo/titanic:latest" "titanic" [0];
     other_pipeline]
    [train_op] [prev_kfp_op; train_kfp_op]
    [[ArgStr "pipelines"; ArgStr "demo"; ArgStr "prev_op"]; train_arguments]
    [train_inputs]
    [(INFO, "Binding input value for train -> data: s3://bucket/x");
     (INFO, "Binding input for train -> model_params: from (prev-op)");
     (INFO, "Binding input for train -> rounds: from PipelineParam (rounds)")].

(** Only the store of kfp operations differs, and it has kept its size. *)
Definition kfp_only (st st' : state) : Prop :=
  exists kfp', length kfp' = length (kfp_ops st) /\ st' = set_kfp_ops kfp' st.

(** Pointers, pipelines and operations are the same, and no store of kfp
    operations or lists has lost an object. *)
Definition grows (st st' : state) : Prop :=
  _current_pipeline st' = _current_pipeline st
  /\ _old_pipeline st' = _old_pipeline st
  /\ pipelines st' = pipelines st
  /\ hml_ops st' = hml_ops st
  /\ length (kfp_ops st) <= length (kfp_ops st')
  /\ length (arg_lists st) <= length (arg_lists st')
  /\ length (param_lists st) <= length (param_lists st').

(** The state once the lists at [la] and [li] hold [xs] and [ps] and the
    records [lg] have been logged. *)
Definition after_binding (la li : loc) (xs : list arg) (ps : list PipelineParam)
    (lg : list (log_level * string)) (st : state) : state :=
  mkState (_current_pipeline st) (_old_pipeline st) (pipelines st)
    (hml_ops st) (kfp_ops st) (<[la := xs]> (arg_lists st))
    (<[li := ps]> (param_lists st)) (log st ++ lg).

(** ** Calls a client can make *)

(** The six fluent configuration methods, by name and arguments. *)
Inductive fluent :=
| FImage (container_image_url : string)
| FCommand (container_command : string) (container_args : loc)
| FSecret (secret_name mount_path : string)
| FGcpAuth (secret_name : string)
| FEnv (variable_name : string) (v : literal)
| FEmptyDir (vname mount_path : string).

(** One call into the module. *)
Inductive call :=
| Enter (p : loc)
| Exit
| Register (f : pyfunc) (kw : dict)
| Configure (self : loc) (c : fluent).

(** The module as first imported: both pointers unset, no operation yet,
    and the pipelines [pls] (created by the client) on hand. *)
Definition fresh_module (pls : list HmlPipeline) : state :=
  mkState None None pls [] [] [] [] [].

(** A client session: enter [demo], register [train], configure it, leave,
    and leave once more. *)
Definition demo_session : list call :=
  [Enter 0; Register train literal_kwargs; Configure 0 (FImage "gcr.io/x");
   Register train [("model", VContainerOp 0)]; Exit; Exit;
   Register train literal_kwargs].

(** ** Ownership links

    What ties operations and pipelines together: the pointers name
    pipelines that exist; an operation listed by a pipeline exists and
    names that pipeline as its owner; an operation is listed by its owner;
    no list names an operation twice; the lists and the kfp operation of an
    operation exist. *)
Record linked (st : state) : Prop := mkLinked {
  linked_current : forall p, _current_pipeline st = Some p -> p < length (pipelines st);
  linked_old : forall p, _old_pipeline st = Some p -> p < length (pipelines st);
  linked_listed : forall p pl o,
    pipelines st !! p = Some pl -> o ∈ ops_list pl ->
    exists h, hml_ops st !! o = Some h /\ pipeline h = p;
  linked_owner : forall o h,
    hml_ops st !! o = Some h ->
    exists pl, pipelines st !! pipeline h = Some pl /\ o ∈ ops_list pl;
  linked_once : forall p pl, pipelines st !! p = Some pl -> NoDup (ops_list pl);
  linked_parts : forall o h,
    hml_ops st !! o = Some h ->
    arguments h < length (arg_lists st)
    /\ inputs h < length (param_lists st)
    /\ op h < length (kfp_ops st)
}.

(** ** Observations *)

(** [self.arguments] and [self.inputs] of the operation at [l], read
    through the stores. *)
Definition op_arguments (st : state) (l : loc) : option (list arg) :=
  h ← hml_ops st !! l; arg_lists st !! arguments h.

Definition op_inputs (st : state) (l : loc) : option (list PipelineParam) :=
  h ← hml_ops st !! l; param_lists st !! inputs h.

(** The first three arguments of every command line. *)
Definition base_arguments (pipeline_name op_name : string) : list arg :=
  [ArgStr "pipelines"; ArgStr pipeline_name; ArgStr op_name].

(** The state a successful registration of [f] with [kw] leaves behind,
    with pipeline [p] (holding [pl]) current: one more operation, one more
    kfp operation, one more argument list, one more list of inputs. *)
Definition registered_state_with (args : list arg) (ins : list PipelineParam)
    (lg : list (log_level * string)) (k8s : string)
    (f : pyfunc) (kw : dict) (p : loc) (pl : HmlPipeline) (st : state) : state :=
  let self := length (hml_ops st) in
  let li := length (param_lists st) in
  let la := length (arg_lists st) in
  let o := length (kfp_ops st) in
  mkState (_current_pipeline st) (_old_pipeline st)
    (<[p := mkHmlPipeline (pl_name pl) (image_url pl) (package_entrypoint pl)
              (ops_list pl ++ [self])]> (pipelines st))
    (hml_ops st ++ [mkHmlContainerOp f (fn_name f) k8s kw p li la o
                      (mkClickCommand (fn_name f) f)])
    (kfp_ops st ++ [mkContainerOp (fn_name f) (image_url pl)
                      (package_entrypoint pl) la (Some li) (Some self) [] [] []])
    (arg_lists st ++ [args])
    (param_lists st ++ [ins])
    (log st ++ lg).

Section Registrar.


(** [hypermodel.utilities.k8s.sanitize_k8s_name] and
    [kfp.gcp.use_gcp_secret] are collaborators outside this module. *)
Variable sanitize_k8s_name : string -> string.
Variable use_gcp_secret : string -> ContainerOp -> ContainerOp.

(** Body of the loop [for param_name in kwargs] of [__init__]; [la] and
    [li] are [self.arguments] and [self.inputs]. *)
Definition bind_input (self_name : string) (kw : dict) (la li : loc)
    (param_name : string) : M unit :=
  input_value <~ dict_getitem kw param_name ;;
  p <~ match input_value with
       | VPipelineParam p =>
           append_arg la (ArgStr ("--" +:+ param_name)) ;;;
           append_arg la (ArgParam p) ;;;
           logging INFO ("Binding input for " +:+ self_name +:+ " -> "
                         +:+ param_name +:+ ": from PipelineParam ("
                         +:+ pp_name p +:+ ")") ;;;
           ret p
       | VContainerOp c =>
           input_op <~ deref kfp_ops c ;;
           let input_op_name := sanitize_k8s_name (co_name input_op) in
           logging INFO ("Binding input for " +:+ self_name +:+ " -> "
                         +:+ param_name +:+ ": from (" +:+ input_op_name
                         +:+ ")") ;;;
           append_arg la (ArgStr ("--" +:+ param_name)) ;;;
           append_arg la (ArgStr ("{{tasks." +:+ input_op_name
                                  +:+ ".outputs.parameters." +:+ param_name
                                  +:+ "}}")) ;;;
           ret (mkPipelineParam param_name (Some input_op_name) None)
       | VLit v =>
           logging INFO ("Binding input value for " +:+ self_name +:+ " -> "
                         +:+ param_name +:+ ": " +:+ py_str v) ;;;
           append_arg la (ArgStr ("--" +:+ param_name)) ;;;
           append_arg la (ArgStr ("{{inputs.parameters." +:+ param_name
                                  +:+ "}}")) ;;;
           ret (mkPipelineParam param_name None (Some v))
       end ;;
  append_param li p.

(** [HmlContainerOp(func, kwargs)]: the constructor; the result is the
    address of the new operation. *)
Definition HmlContainerOp_init (f : pyfunc) (kw : dict) : M loc :=
  self <~ new_object ;;
  let self_name := fn_name f in
  let self_k8s_name := sanitize_k8s_name self_name in
  cur <~ get_current ;;
  match cur with
  | None =>
      logging ERROR "Unable to create HmlContainerOp, the `_pipeline_enter` function has not been called"
  | Some _ => ret tt
  end ;;;
  li <~ new_param_list [] ;;
  match cur with
  | None => raise (AttributeError "'NoneType' object has no attribute 'name'")
  | Some p =>
      pl <~ deref pipelines p ;;
      la <~ new_arg_list [ArgStr "pipelines"; ArgStr (pl_name pl); ArgStr self_name] ;;
      for_each (dict_keys kw) (bind_input self_name kw la li) ;;;
      pl' <~ deref pipelines p ;;
      o <~ new_kfp_op (mkContainerOp self_name (image_url pl')
                         (package_entrypoint pl') la None None [] [] []) ;;
      update_kfp_op o (co_set_inputs li) ;;;
      update_kfp_op o (co_set_hml_op self) ;;;
      store_object (mkHmlContainerOp f self_name self_k8s_name kw p li la o
                      (mkClickCommand self_name f)) ;;;
      _add_op p self ;;;
      ret self
  end.

(** ** Fluent configuration *)

Definition with_image (self : loc) (container_image_url : string) : M loc :=
  h <~ deref hml_ops self ;;
  update_kfp_op (op h) (co_set_image container_image_url) ;;;
  ret self.

Definition with_command (self : loc) (container_command : string)
    (container_args : loc) : M loc :=
  h <~ deref hml_ops self ;;
  update_kfp_op (op h) (co_set_command container_command) ;;;
  update_kfp_op (op h) (co_set_arguments container_args) ;;;
  ret self.

Definition with_secret (self : loc) (secret_name mount_path : string) : M loc :=
  let volume_name := secret_name in
  h <~ deref hml_ops self ;;
  update_kfp_op (op h)
    (add_volume (mkV1Volume volume_name (V1SecretVolumeSource secret_name))) ;;;
  update_kfp_op (op h)
    (add_volume_mount (mkV1VolumeMount volume_name mount_path)) ;;;
  ret self.

Definition with_gcp_auth (self : loc) (secret_name : string) : M loc :=
  h <~ deref hml_ops self ;;
  update_kfp_op (op h) (use_gcp_secret secret_name) ;;;
  ret self.

Definition with_env (self : loc) (variable_name : string) (v : literal) : M loc :=
  h <~ deref hml_ops self ;;
  update_kfp_op (op h) (add_env_variable (mkV1EnvVar variable_name (py_str v))) ;;;
  ret self.

Definition with_empty_dir (self : loc) (vname mount_path : string) : M loc :=
  h <~ deref hml_ops self ;;
  update_kfp_op (op h) (add_volume (mkV1Volume vname V1EmptyDirVolumeSource)) ;;;
  update_kfp_op (op h) (add_volume_mount (mkV1VolumeMount vname mount_path)) ;;;
  ret self.


(** ** Invocation *)

(** Calling a Python function with keyword arguments: what the wrapped
    functions do is up to the client. *)
Variable R : Type.
Variable call_function : pyfunc -> dict -> M R.

(** [invoke]: [self.func] called with [self.kwargs] as its keyword
    arguments; the result of the function is the result of [invoke]. *)
Definition invoke (self : loc) : M R :=
  h <~ deref hml_ops self ;;
  call_function (func h) (kwargs h).

(** ** Dispatch of client calls *)

Definition configure (self : loc) (c : fluent) : M loc :=
  match c with
  | FImage url => with_image self url
  | FCommand cmd args => with_command self cmd args
  | FSecret secret_name mount_path => with_secret self secret_name mount_path
  | FGcpAuth secret_name => with_gcp_auth self secret_name
  | FEnv variable_name v => with_env self variable_name v
  | FEmptyDir vname mount_path => with_empty_dir self vname mount_path
  end.


(** The state a call leaves behind, whether it returned or raised (the
    client may catch the exception and go on). *)
Definition run_call (c : call) (st : state) : state :=
  match c with
  | Enter p => (_pipeline_enter p st).1
  | Exit => (_pipeline_exit st).1
  | Register f kw => (HmlContainerOp_init f kw st).1
  | Configure self c => (configure self c st).1
  end.

Definition run_calls (cs : list call) (st : state) : state :=
  fold_left (fun st c => run_call c st) cs st.

(** A fluent chain [op.m1(...).m2(...)...]: each call is made on what the
    call before it returned. *)
Fixpoint chain (self : loc) (cs : list fluent) : M loc :=
  match cs with
  | [] => ret self
  | c :: cs' => o <~ configure self c ;; chain o cs'
  end.

(** What each fluent method does to the kfp operation it reaches. *)
Definition fluent_effect (c : fluent) : ContainerOp -> ContainerOp :=
  match c with
  | FImage url => co_set_image url
  | FCommand cmd args => fun o => co_set_arguments args (co_set_command cmd o)
  | FSecret secret_name mount_path =>
      fun o =>
        add_volume_mount (mkV1VolumeMount secret_name mount_path)
          (add_volume
             (mkV1Volume secret_name (V1SecretVolumeSource secret_name)) o)
  | FGcpAuth secret_name => use_gcp_secret secret_name
  | FEnv variable_name v =>
      add_env_variable (mkV1EnvVar variable_name (py_str v))
  | FEmptyDir vname mount_path =>
      fun o =>
        add_volume_mount (mkV1VolumeMount vname mount_path)
          (add_volume (mkV1Volume vname V1EmptyDirVolumeSource) o)
  end.

(** ** The registrar as the specification words it

    The three ways an argument is sourced, and what each contributes to
    the command line, to the bound inputs and to the log. *)

(** Sanitized identifier of the kfp operation at [c]. *)
Definition source_op_id (kfp : list ContainerOp) (c : loc) : string :=
  match kfp !! c with
  | Some src => sanitize_k8s_name (co_name src)
  | None => ""
  end.

Definition expected_token (kfp : list ContainerOp) (k : string) (v : value) : arg :=
  match v with
  | VPipelineParam p => ArgParam p
  | VContainerOp c =>
      ArgStr ("{{tasks." +:+ source_op_id kfp c +:+ ".outputs.parameters."
              +:+ k +:+ "}}")
  | VLit _ => ArgStr ("{{inputs.parameters." +:+ k +:+ "}}")
  end.

Definition expected_pair (kfp : list ContainerOp) (e : string * value) : list arg :=
  [ArgStr ("--" +:+ e.1); expected_token kfp e.1 e.2].

Definition expected_input (kfp : list ContainerOp) (e : string * value) : PipelineParam :=
  match e.2 with
  | VPipelineParam p => p
  | VContainerOp c => mkPipelineParam e.1 (Some (source_op_id kfp c)) None
  | VLit v => mkPipelineParam e.1 None (Some v)
  end.

Definition expected_log (self_name : string) (kfp : list ContainerOp)
    (e : string * value) : log_level * string :=
  (INFO,
   match e.2 with
   | VPipelineParam p =>
       "Binding input for " +:+ self_name +:+ " -> " +:+ e.1
       +:+ ": from PipelineParam (" +:+ pp_name p +:+ ")"
   | VContainerOp c =>
       "Binding input for " +:+ self_name +:+ " -> " +:+ e.1
       +:+ ": from (" +:+ source_op_id kfp c +:+ ")"
   | VLit v =>
       "Binding input value for " +:+ self_name +:+ " -> " +:+ e.1
       +:+ ": " +:+ py_str v
   end).

Definition expected_arguments (pipeline_name op_name : string)
    (kfp : list ContainerOp) (kw : dict) : list arg :=
  base_arguments pipeline_name op_name ++ flat_map (expected_pair kfp) kw.

Definition registered_state (f : pyfunc) (kw : dict) (p : loc)
    (pl : HmlPipeline) (st : state) : state :=
  registered_state_with
    (expected_arguments (pl_name pl) (fn_name f) (kfp_ops st) kw)
    (map (expected_input (kfp_ops st)) kw)
    (map (expected_log (fn_name f) (kfp_ops st)) kw)
    (sanitize_k8s_name (fn_name f)) f kw p pl st.

(** * Properties *)

(** ** Running the monad *)

Lemma bind_Ok {A B} (m : M A) (k : A -> M B) st st' a :
  m st = (st', Ok a) -> bind m k st = k a st'.
Proof. intros H. unfold bind. by rewrite H. Qed.

Lemma bind_assoc {A B C} (m : M A) (f : A -> M B) (g : B -> M C) st :
  bind (bind m f) g st = bind m (fun x => bind (f x) g) st.
Proof. unfold bind. by destruct (m st) as [st' [a | e |]]. Qed.

(** Reduce reads of the state record after a write. *)
Ltac simpl_state :=
  cbn [_current_pipeline _old_pipeline pipelines hml_ops kfp_ops arg_lists
       param_lists log set_pipelines set_hml_ops set_kfp_ops set_arg_lists
       set_param_lists].

(** Run the first statement of a sequence; [tac] proves its outcome. *)
Ltac mstep tac :=
  rewrite ?bind_assoc; erewrite bind_Ok; [| tac]; simpl_state.

Lemma deref_Ok {A} (store : state -> list A) l st x :
  store st !! l = Some x -> deref store l st = (st, Ok x).
Proof. intros H. unfold deref. by rewrite H. Qed.

Lemma append_arg_run l a st xs :
  arg_lists st !! l = Some xs ->
  append_arg l a st = (set_arg_lists (<[l := xs ++ [a]]> (arg_lists st)) st, Ok tt).
Proof. intros H. unfold append_arg. by rewrite (bind_Ok _ _ _ _ _ (deref_Ok _ _ _ _ H)). Qed.

Lemma append_param_run l p st xs :
  param_lists st !! l = Some xs ->
  append_param l p st
  = (set_param_lists (<[l := xs ++ [p]]> (param_lists st)) st, Ok tt).
Proof. intros H. unfold append_param. by rewrite (bind_Ok _ _ _ _ _ (deref_Ok _ _ _ _ H)). Qed.

Lemma update_kfp_op_run l f st c :
  kfp_ops st !! l = Some c ->
  update_kfp_op l f st = (set_kfp_ops (<[l := f c]> (kfp_ops st)) st, Ok tt).
Proof. intros H. unfold update_kfp_op. by rewrite (bind_Ok _ _ _ _ _ (deref_Ok _ _ _ _ H)). Qed.

(** ** Dictionaries *)

Lemma dict_get_app_fresh (d1 d2 : dict) k :
  k ∉ dict_keys d1 -> dict_get (d1 ++ d2) k = dict_get d2 k.
Proof.
  induction d1 as [|[k' v'] d1 IH]; simpl; [done|].
  intros Hk. apply not_elem_of_cons in Hk as [Hne Hk].
  destruct (decide (k' = k)); [congruence | auto].
Qed.

Lemma dict_get_here (d : dict) k v : dict_get ((k, v) :: d) k = Some v.
Proof. simpl. by rewrite decide_True. Qed.

(** Storing under a new key adds it after the keys already there; storing
    under a key already there keeps the order.  Either way the keys stay
    pairwise distinct. *)
Lemma dict_set_keys (d : dict) k v :
  dict_keys (dict_set d k v)
  = if decide (k ∈ dict_keys d) then dict_keys d else dict_keys d ++ [k].
Proof.
  unfold dict_keys. induction d as [|[k' v'] d IH]; csimpl; [done|].
  destruct (decide (k' = k)) as [->|Hne]; csimpl.
  - rewrite decide_True; [done | by left].
  - rewrite IH. destruct (decide (k ∈ d.*1)) as [Hin|Hnin].
    + rewrite decide_True; [done | by right].
    + rewrite decide_False; [done|].
      intros Hin. apply elem_of_cons in Hin as [->|Hin]; done.
Qed.

Lemma dict_set_wf (d : dict) k v : dict_wf d -> dict_wf (dict_set d k v).
Proof.
  unfold dict_wf. rewrite dict_set_keys. intros Hwf.
  destruct (decide (k ∈ dict_keys d)) as [Hin|Hnin]; [done|].
  apply NoDup_app. split; [done|]. split; [|apply NoDup_singleton].
  intros x Hx Hk. apply list_elem_of_singleton in Hk. by subst.
Qed.

Lemma value_live_lookup kfp c :
  value_live kfp (VContainerOp c) = true -> exists src, kfp !! c = Some src.
Proof.
  simpl. intros H. apply bool_decide_eq_true in H.
  by apply lookup_lt_is_Some_2 in H as [src ?]; exists src.
Qed.

(** ** The binding loop *)

Lemma after_binding_id la li xs ps st :
  arg_lists st !! la = Some xs -> param_lists st !! li = Some ps ->
  after_binding la li xs ps [] st = st.
Proof.
  intros Ha Hp. destruct st. unfold after_binding. simpl in *.
  by rewrite (list_insert_id _ _ _ Ha), (list_insert_id _ _ _ Hp), app_nil_r.
Qed.

Lemma after_binding_twice la li xs ps lg xs' ps' lg' st :
  after_binding la li xs' ps' lg' (after_binding la li xs ps lg st)
  = after_binding la li xs' ps' (lg ++ lg') st.
Proof.
  unfold after_binding. simpl.
  by rewrite !list_insert_insert_eq, app_assoc.
Qed.

(** One iteration: two tokens, one bound input, one log record. *)
Lemma bind_input_run self_name kw la li k v st xs ps :
  dict_get kw k = Some v ->
  value_live (kfp_ops st) v = true ->
  arg_lists st !! la = Some xs ->
  param_lists st !! li = Some ps ->
  bind_input self_name kw la li k st
  = (after_binding la li (xs ++ expected_pair (kfp_ops st) (k, v))
       (ps ++ [expected_input (kfp_ops st) (k, v)])
       [expected_log self_name (kfp_ops st) (k, v)] st, Ok tt).
Proof.
  intros Hget Hlive Ha Hp.
  assert (Hlt : la < length (arg_lists st)) by by eapply lookup_lt_Some.
  unfold bind_input, dict_getitem. rewrite Hget.
  rewrite (bind_Ok _ _ _ _ _ eq_refl).
  destruct v as [p | c | v].
  - mstep ltac:(by apply append_arg_run).
    mstep ltac:(apply append_arg_run; simpl; by apply list_lookup_insert_eq).
    mstep ltac:(reflexivity).
    mstep ltac:(reflexivity).
    rewrite (append_param_run _ _ _ ps) by done.
    destruct st; unfold after_binding; simpl.
    by rewrite list_insert_insert_eq, <- app_assoc.
  - destruct (value_live_lookup _ _ Hlive) as [src Hsrc].
    mstep ltac:(by apply deref_Ok).
    mstep ltac:(reflexivity).
    mstep ltac:(by apply append_arg_run).
    mstep ltac:(apply append_arg_run; simpl; by apply list_lookup_insert_eq).
    mstep ltac:(reflexivity).
    rewrite (append_param_run _ _ _ ps) by done.
    destruct st; unfold after_binding, expected_pair, expected_input,
      expected_log, expected_token, source_op_id; simpl in *.
    rewrite Hsrc.
    by rewrite list_insert_insert_eq, <- app_assoc.
  - mstep ltac:(reflexivity).
    mstep ltac:(by apply append_arg_run).
    mstep ltac:(apply append_arg_run; simpl; by apply list_lookup_insert_eq).
    mstep ltac:(reflexivity).
    rewrite (append_param_run _ _ _ ps) by done.
    destruct st; unfold after_binding; simpl.
    by rewrite list_insert_insert_eq, <- app_assoc.
Qed.

(** The whole loop, started after the entries [done] have been bound. *)
Lemma for_each_bind_run self_name kw la li :
  forall rest done st xs ps,
    kw = done ++ rest ->
    dict_wf kw ->
    kwargs_live (kfp_ops st) rest = true ->
    arg_lists st !! la = Some xs ->
    param_lists st !! li = Some ps ->
    for_each (dict_keys rest) (bind_input self_name kw la li) st
    = (after_binding la li (xs ++ flat_map (expected_pair (kfp_ops st)) rest)
         (ps ++ map (expected_input (kfp_ops st)) rest)
         (map (expected_log self_name (kfp_ops st)) rest) st, Ok tt).
Proof.
  induction rest as [|[k v] rest IH]; intros done st xs ps Hkw Hwf Hlive Ha Hp.
  - simpl. rewrite !app_nil_r. by rewrite after_binding_id.
  - simpl in Hlive. apply andb_true_iff in Hlive as [Hv Hrest].
    assert (Hget : dict_get kw k = Some v).
    { subst kw. unfold dict_wf, dict_keys in Hwf. rewrite fmap_app in Hwf.
      apply NoDup_app in Hwf as (_ & Hfresh & _).
      rewrite dict_get_app_fresh; [apply dict_get_here|].
      intros Hin. apply (Hfresh k Hin). simpl. left. }
    simpl.
    rewrite (bind_Ok _ _ _ _ _ (bind_input_run _ _ _ _ _ _ _ _ _ Hget Hv Ha Hp)).
    assert (Hla : la < length (arg_lists st)) by by eapply lookup_lt_Some.
    assert (Hli : li < length (param_lists st)) by by eapply lookup_lt_Some.
    rewrite (IH (done ++ [(k, v)]) _
               (xs ++ expected_pair (kfp_ops st) (k, v))
               (ps ++ [expected_input (kfp_ops st) (k, v)])).
    + rewrite after_binding_twice. simpl.
      by rewrite <- !app_assoc.
    + by rewrite <- app_assoc.
    + done.
    + done.
    + simpl. by apply list_lookup_insert_eq.
    + simpl. by apply list_lookup_insert_eq.
Qed.

(** ** The constructor *)

Lemma insert_snoc {A} (l : list A) x y : <[length l := y]> (l ++ [x]) = l ++ [y].
Proof. rewrite insert_app_r_alt by lia. by rewrite Nat.sub_diag. Qed.

Lemma lookup_snoc_here {A} (l : list A) x : (l ++ [x]) !! length l = Some x.
Proof. by apply list_lookup_middle. Qed.

(** With pipeline [p] current, the constructor succeeds and leaves exactly
    [registered_state]. *)
Lemma init_run f kw st p pl :
  _current_pipeline st = Some p ->
  pipelines st !! p = Some pl ->
  dict_wf kw ->
  kwargs_live (kfp_ops st) kw = true ->
  HmlContainerOp_init f kw st
  = (registered_state f kw p pl st, Ok (length (hml_ops st))).
Proof.
  intros Hcur Hpl Hwf Hlive.
  unfold HmlContainerOp_init.
  destruct st as [cur old pls hml kfp al prl lg]; simpl in *.
  mstep ltac:(reflexivity).
  mstep ltac:(reflexivity).
  rewrite Hcur.
  mstep ltac:(reflexivity).
  mstep ltac:(reflexivity).
  mstep ltac:(by apply deref_Ok).
  mstep ltac:(reflexivity).
  mstep ltac:(eapply (for_each_bind_run _ kw _ _ kw []);
              [done | done | done | apply lookup_snoc_here | apply lookup_snoc_here]).
  unfold after_binding; simpl_state.
  mstep ltac:(by apply deref_Ok).
  mstep ltac:(reflexivity).
  mstep ltac:(apply update_kfp_op_run; apply lookup_snoc_here).
  mstep ltac:(apply update_kfp_op_run; simpl; rewrite insert_snoc;
              apply lookup_snoc_here).
  mstep ltac:(reflexivity).
  unfold _add_op.
  mstep ltac:(by apply deref_Ok).
  mstep ltac:(reflexivity).
  unfold ret, registered_state, registered_state_with, expected_arguments,
    base_arguments, co_set_hml_op, co_set_inputs.
  simpl_state. cbn [co_name co_image co_command co_arguments co_inputs
                    co_hml_op co_volumes co_volume_mounts co_env].
  by rewrite !insert_snoc.
Qed.

Lemma registered_arguments f kw p pl st :
  op_arguments (registered_state f kw p pl st) (length (hml_ops st))
  = Some (expected_arguments (pl_name pl) (fn_name f) (kfp_ops st) kw).
Proof.
  unfold op_arguments, registered_state, registered_state_with. simpl.
  rewrite lookup_snoc_here. simpl. apply lookup_snoc_here.
Qed.

Lemma registered_inputs f kw p pl st :
  op_inputs (registered_state f kw p pl st) (length (hml_ops st))
  = Some (map (expected_input (kfp_ops st)) kw).
Proof.
  unfold op_inputs, registered_state, registered_state_with. simpl.
  rewrite lookup_snoc_here. simpl. apply lookup_snoc_here.
Qed.

(** Entry [i] of the mapping owns positions [3 + 2i] and [4 + 2i]. *)
Lemma expected_arguments_lookup pn on kfp (kw : dict) i k v :
  kw !! i = Some (k, v) ->
  expected_arguments pn on kfp kw !! (3 + 2 * i) = Some (ArgStr ("--" +:+ k))
  /\ expected_arguments pn on kfp kw !! (4 + 2 * i)
     = Some (expected_token kfp k v).
Proof.
  unfold expected_arguments, base_arguments. simpl.
  revert i. induction kw as [|e kw IH]; intros i Hi; [done|].
  destruct i as [|i]; simpl in *.
  - by inversion Hi.
  - replace (i + S (i + 0)) with (S (2 * i)) by lia. simpl. by apply IH.
Qed.

Lemma expected_inputs_lookup kfp (kw : dict) i e :
  kw !! i = Some e ->
  map (expected_input kfp) kw !! i = Some (expected_input kfp e).
Proof.
  intros Hi. change (map (expected_input kfp) kw) with (expected_input kfp <$> kw).
  by rewrite list_lookup_fmap, Hi.
Qed.

Lemma expected_arguments_length pn on kfp (kw : dict) :
  length (expected_arguments pn on kfp kw) = 3 + 2 * length kw.
Proof.
  unfold expected_arguments, base_arguments. simpl. do 3 f_equal.
  induction kw as [|e kw IH]; simpl; [done|]. rewrite IH. lia.
Qed.

Lemma dict_wf_Permutation (kw kw' : dict) : kw' ≡ₚ kw -> dict_wf kw -> dict_wf kw'.
Proof. unfold dict_wf, dict_keys. intros Hp. by rewrite Hp. Qed.

Lemma kwargs_live_Permutation kfp (kw kw' : dict) :
  kw' ≡ₚ kw -> kwargs_live kfp kw = true -> kwargs_live kfp kw' = true.
Proof.
  unfold kwargs_live. rewrite !forallb_forall. intros Hp H e He.
  apply H. by eapply Permutation_in.
Qed.

(** ** Argument lists *)

(** C1: with a pipeline current, registering a function with a keyword
    mapping yields the argument list ["pipelines", <pipeline-name>,
    <operation-name>] followed by one pair per entry, entry [i] of the
    mapping at positions [3 + 2i] and [4 + 2i]; a mapping with the same
    entries in another order yields the pairs in that other order. *)
Theorem arguments_follow_insertion_order f kw st p pl :
  _current_pipeline st = Some p ->
  pipelines st !! p = Some pl ->
  dict_wf kw ->
  kwargs_live (kfp_ops st) kw = true ->
  (exists st' self args,
      HmlContainerOp_init f kw st = (st', Ok self)
      /\ op_arguments st' self = Some args
      /\ args = base_arguments (pl_name pl) (fn_name f)
                ++ flat_map (expected_pair (kfp_ops st)) kw
      /\ forall i k v, kw !! i = Some (k, v) ->
           args !! (3 + 2 * i) = Some (ArgStr ("--" +:+ k))
           /\ args !! (4 + 2 * i) = Some (expected_token (kfp_ops st) k v))
  /\ forall kw', kw' ≡ₚ kw ->
       exists st' self,
         HmlContainerOp_init f kw' st = (st', Ok self)
         /\ op_arguments st' self
            = Some (base_arguments (pl_name pl) (fn_name f)
                    ++ flat_map (expected_pair (kfp_ops st)) kw').
Proof.
  intros Hcur Hpl Hwf Hlive. split.
  - eexists _, _, _. split; [by apply init_run|].
    split; [apply registered_arguments|]. split; [done|].
    intros i k v Hi. by apply expected_arguments_lookup.
  - intros kw' Hp. eexists _, _. split.
    + apply init_run; eauto using dict_wf_Permutation, kwargs_live_Permutation.
    + apply registered_arguments.
Qed.

(** C10: an operation created from [n] keyword arguments has [3 + 2n]
    arguments and [n] bound inputs, whatever the kinds of the values. *)
Theorem arguments_and_inputs_lengths f kw st p pl :
  _current_pipeline st = Some p ->
  pipelines st !! p = Some pl ->
  dict_wf kw ->
  kwargs_live (kfp_ops st) kw = true ->
  exists st' self args ins,
    HmlContainerOp_init f kw st = (st', Ok self)
    /\ op_arguments st' self = Some args
    /\ op_inputs st' self = Some ins
    /\ length args = 3 + 2 * length kw
    /\ length ins = length kw.
Proof.
  intros Hcur Hpl Hwf Hlive. eexists _, _, _, _.
  split; [by apply init_run|].
  split; [apply registered_arguments|].
  split; [apply registered_inputs|].
  split; [apply expected_arguments_length | apply length_map].
Qed.

(** C2: a keyword argument [k] whose value is the kfp operation [src]
    contributes [--k] followed by
    [{{tasks.<sanitized name of src>.outputs.parameters.k}}]. *)
Theorem output_reference_pair f kw st p pl i k c src :
  _current_pipeline st = Some p ->
  pipelines st !! p = Some pl ->
  dict_wf kw ->
  kwargs_live (kfp_ops st) kw = true ->
  kw !! i = Some (k, VContainerOp c) ->
  kfp_ops st !! c = Some src ->
  exists st' self args,
    HmlContainerOp_init f kw st = (st', Ok self)
    /\ op_arguments st' self = Some args
    /\ args !! (3 + 2 * i) = Some (ArgStr ("--" +:+ k))
    /\ args !! (4 + 2 * i)
       = Some (ArgStr ("{{tasks." +:+ sanitize_k8s_name (co_name src)
                       +:+ ".outputs.parameters." +:+ k +:+ "}}")).
Proof.
  intros Hcur Hpl Hwf Hlive Hi Hsrc. eexists _, _, _.
  split; [by apply init_run|].
  split; [apply registered_arguments|].
  destruct (expected_arguments_lookup (pl_name pl) (fn_name f) (kfp_ops st)
              kw i k _ Hi) as [Hflag Htok].
  split; [done|]. rewrite Htok. simpl. unfold source_op_id. by rewrite Hsrc.
Qed.

(** C3: a keyword argument [k] whose value is a literal [v] contributes
    [--k] followed by [{{inputs.parameters.k}}], and the bound input at its
    position is a new pipeline parameter named [k] carrying [v]. *)
Theorem literal_pair_and_parameter f kw st p pl i k v :
  _current_pipeline st = Some p ->
  pipelines st !! p = Some pl ->
  dict_wf kw ->
  kwargs_live (kfp_ops st) kw = true ->
  kw !! i = Some (k, VLit v) ->
  exists st' self args ins,
    HmlContainerOp_init f kw st = (st', Ok self)
    /\ op_arguments st' self = Some args
    /\ op_inputs st' self = Some ins
    /\ args !! (3 + 2 * i) = Some (ArgStr ("--" +:+ k))
    /\ args !! (4 + 2 * i) = Some (ArgStr ("{{inputs.parameters." +:+ k +:+ "}}"))
    /\ ins !! i = Some (mkPipelineParam k None (Some v)).
Proof.
  intros Hcur Hpl Hwf Hlive Hi. eexists _, _, _, _.
  split; [by apply init_run|].
  split; [apply registered_arguments|].
  split; [apply registered_inputs|].
  destruct (expected_arguments_lookup (pl_name pl) (fn_name f) (kfp_ops st)
              kw i k _ Hi) as [Hflag Htok].
  split; [done|]. split; [done|].
  by rewrite (expected_inputs_lookup _ _ _ _ Hi).
Qed.

(** C5: a keyword argument [k] whose value is a pipeline parameter [prm]
    contributes [--k] followed by the parameter itself, taken as it is, and
    the bound input at its position is that same parameter. *)
Theorem pipeline_parameter_pair f kw st p pl i k prm :
  _current_pipeline st = Some p ->
  pipelines st !! p = Some pl ->
  dict_wf kw ->
  kwargs_live (kfp_ops st) kw = true ->
  kw !! i = Some (k, VPipelineParam prm) ->
  exists st' self args ins,
    HmlContainerOp_init f kw st = (st', Ok self)
    /\ op_arguments st' self = Some args
    /\ op_inputs st' self = Some ins
    /\ args !! (3 + 2 * i) = Some (ArgStr ("--" +:+ k))
    /\ args !! (4 + 2 * i) = Some (ArgParam prm)
    /\ ins !! i = Some prm.
Proof.
  intros Hcur Hpl Hwf Hlive Hi. eexists _, _, _, _.
  split; [by apply init_run|].
  split; [apply registered_arguments|].
  split; [apply registered_inputs|].
  destruct (expected_arguments_lookup (pl_name pl) (fn_name f) (kfp_ops st)
              kw i k _ Hi) as [Hflag Htok].
  split; [done|]. split; [done|].
  by rewrite (expected_inputs_lookup _ _ _ _ Hi).
Qed.

(** ** Registration without an active pipeline *)

(** C4: with no pipeline current, the guard of the constructor only logs
    the condition: it raises nothing, and the constructor goes on with
    [None] for its pipeline and creates [self.inputs].  It stops at the
    next statement, where the read of [self.pipeline.name] fails with the
    attribute error of [None]; that error, not a configuration error, is
    what the caller gets.  No operation, no kfp operation, no argument list
    and no change to any pipeline results. *)
Theorem registration_without_pipeline_fails f kw st :
  _current_pipeline st = None ->
  exists st',
    HmlContainerOp_init f kw st
    = (st', Raise (AttributeError "'NoneType' object has no attribute 'name'"))
    /\ log st'
       = log st ++ [(ERROR, "Unable to create HmlContainerOp, the `_pipeline_enter` function has not been called")]
    /\ param_lists st' = param_lists st ++ [[]]
    /\ arg_lists st' = arg_lists st
    /\ hml_ops st' = hml_ops st
    /\ kfp_ops st' = kfp_ops st
    /\ pipelines st' = pipelines st.
Proof.
  intros Hcur. eexists. split.
  - unfold HmlContainerOp_init.
    mstep ltac:(reflexivity).
    mstep ltac:(reflexivity).
    rewrite Hcur.
    mstep ltac:(reflexivity).
    mstep ltac:(reflexivity).
    reflexivity.
  - by destruct st.
Qed.

(** ** Repeated registration *)

Lemma kwargs_live_grow kfp more (kw : dict) :
  kwargs_live kfp kw = true -> kwargs_live (kfp ++ more) kw = true.
Proof.
  unfold kwargs_live. rewrite !forallb_forall. intros H e He.
  specialize (H e He). destruct e as [k [prm | c | v]]; simpl in *; try done.
  apply bool_decide_eq_true in H. apply bool_decide_eq_true.
  rewrite length_app. lia.
Qed.

(** C7: each registration adds a new operation at the end of the current
    pipeline's operation list; registering the same function twice gives
    two operations at different addresses whose argument lists are
    different list objects: appending to the first leaves the second as it
    was. *)
Theorem registration_not_idempotent f kw st p pl :
  _current_pipeline st = Some p ->
  pipelines st !! p = Some pl ->
  dict_wf kw ->
  kwargs_live (kfp_ops st) kw = true ->
  exists st1 self1 st2 self2 h1 h2 args1 args2,
    HmlContainerOp_init f kw st = (st1, Ok self1)
    /\ hml_ops st !! self1 = None
    /\ ops_list <$> pipelines st1 !! p = Some (ops_list pl ++ [self1])
    /\ HmlContainerOp_init f kw st1 = (st2, Ok self2)
    /\ ops_list <$> pipelines st2 !! p = Some (ops_list pl ++ [self1; self2])
    /\ self1 <> self2
    /\ hml_ops st2 !! self1 = Some h1
    /\ hml_ops st2 !! self2 = Some h2
    /\ arguments h1 <> arguments h2
    /\ op_arguments st2 self1 = Some args1
    /\ op_arguments st2 self2 = Some args2
    /\ forall x, exists st3,
         append_arg (arguments h1) x st2 = (st3, Ok tt)
         /\ op_arguments st3 self1 = Some (args1 ++ [x])
         /\ op_arguments st3 self2 = Some args2.
Proof.
  intros Hcur Hpl Hwf Hlive.
  assert (Hp : p < length (pipelines st)) by by eapply lookup_lt_Some.
  set (pl1 := mkHmlPipeline (pl_name pl) (image_url pl) (package_entrypoint pl)
                (ops_list pl ++ [length (hml_ops st)])).
  set (st1 := registered_state f kw p pl st).
  assert (Hpl1 : pipelines st1 !! p = Some pl1)
    by (simpl; by apply list_lookup_insert_eq).
  assert (Hlive1 : kwargs_live (kfp_ops st1) kw = true)
    by (simpl; by apply kwargs_live_grow).
  assert (Hhml1 : length (hml_ops st1) = S (length (hml_ops st)))
    by (simpl; rewrite length_app; simpl; lia).
  assert (Hal1 : length (arg_lists st1) = S (length (arg_lists st)))
    by (simpl; rewrite length_app; simpl; lia).
  exists st1, (length (hml_ops st)), (registered_state f kw p pl1 st1),
    (length (hml_ops st1)).
  eexists _, _, _, _.
  split; [by apply init_run|].
  split; [by apply lookup_ge_None_2|].
  split; [by rewrite Hpl1|].
  split; [by apply init_run|].
  split.
  { simpl. rewrite list_lookup_insert_eq; simpl.
    - by rewrite <- app_assoc, length_app, Nat.add_comm.
    - by rewrite length_insert. }
  split; [lia|].
  split.
  { simpl. rewrite lookup_app_l by (rewrite length_app; simpl; lia).
    apply lookup_snoc_here. }
  split; [apply lookup_snoc_here|].
  split; [simpl; rewrite length_app; simpl; lia|].
  split.
  { unfold op_arguments. simpl.
    rewrite lookup_app_l by (rewrite length_app; simpl; lia).
    rewrite lookup_snoc_here. simpl.
    rewrite lookup_app_l by (rewrite length_app; simpl; lia).
    apply lookup_snoc_here. }
  split; [apply registered_arguments|].
  intros x. eexists. split.
  { apply append_arg_run. simpl.
    rewrite lookup_app_l by (rewrite length_app; simpl; lia).
    apply lookup_snoc_here. }
  split.
  - unfold op_arguments. simpl.
    rewrite lookup_app_l by (rewrite length_app; simpl; lia).
    rewrite lookup_snoc_here. simpl.
    apply list_lookup_insert_eq. rewrite !length_app. simpl. lia.
  - unfold op_arguments. simpl.
    rewrite (lookup_snoc_here (hml_ops st ++ _)). simpl.
    rewrite list_lookup_insert_ne by (rewrite length_app; simpl; lia).
    apply (lookup_snoc_here (arg_lists st ++ _)).
Qed.

(** ** Pipeline activation *)

Lemma _pipeline_enter_run p pl st :
  pipelines st !! p = Some pl ->
  exists st',
    _pipeline_enter p st = (st', Ok tt)
    /\ _current_pipeline st' = Some p
    /\ _old_pipeline st' = _current_pipeline st
    /\ pipelines st' = pipelines st.
Proof.
  intros Hpl. eexists. split.
  - unfold _pipeline_enter.
    mstep ltac:(by apply deref_Ok).
    mstep ltac:(reflexivity).
    mstep ltac:(reflexivity).
    reflexivity.
  - done.
Qed.

Lemma _pipeline_exit_run c pl st :
  _current_pipeline st = Some c ->
  pipelines st !! c = Some pl ->
  exists st',
    _pipeline_exit st = (st', Ok tt)
    /\ _current_pipeline st' = _old_pipeline st
    /\ _old_pipeline st' = _old_pipeline st
    /\ pipelines st' = pipelines st.
Proof.
  intros Hcur Hpl. eexists. split.
  - unfold _pipeline_exit.
    mstep ltac:(reflexivity).
    rewrite Hcur.
    mstep ltac:(by apply deref_Ok).
    mstep ltac:(reflexivity).
    mstep ltac:(reflexivity).
    reflexivity.
  - done.
Qed.

(** [_pipeline_exit] with nothing current raises and changes nothing. *)
Lemma _pipeline_exit_unset st :
  _current_pipeline st = None ->
  _pipeline_exit st
  = (st, Raise (AttributeError "'NoneType' object has no attribute 'name'")).
Proof.
  intros Hcur. unfold _pipeline_exit.
  mstep ltac:(reflexivity).
  by rewrite Hcur.
Qed.

(** C6: from any pointer state, [enter(A); enter(B); exit(); exit()]
    succeeds; after the two [enter]s the slots hold [B] and [A] and nothing
    else, so the pipeline that was current before [A] is held nowhere; the
    first [exit] brings [A] back, the second leaves [A] current again, and
    the pointer that was current before [A] comes back only when it was
    [A] itself: never when it was unset. *)
Theorem enter_exit_is_one_level_deep st a b pa pb :
  pipelines st !! a = Some pa ->
  pipelines st !! b = Some pb ->
  exists st1 st2 st3 st4,
    _pipeline_enter a st = (st1, Ok tt)
    /\ _pipeline_enter b st1 = (st2, Ok tt)
    /\ _pipeline_exit st2 = (st3, Ok tt)
    /\ _pipeline_exit st3 = (st4, Ok tt)
    /\ (_current_pipeline st2 = Some b /\ _old_pipeline st2 = Some a)
    /\ _current_pipeline st3 = Some a
    /\ (_current_pipeline st4 = Some a /\ _old_pipeline st4 = Some a)
    /\ (_current_pipeline st4 = _current_pipeline st
        <-> _current_pipeline st = Some a)
    /\ (_current_pipeline st = None -> _current_pipeline st4 <> None).
Proof.
  intros Ha Hb.
  destruct (_pipeline_enter_run a pa st Ha) as (st1 & E1 & C1 & O1 & P1).
  assert (Hb1 : pipelines st1 !! b = Some pb) by by rewrite P1.
  destruct (_pipeline_enter_run b pb st1 Hb1) as (st2 & E2 & C2 & O2 & P2).
  assert (Hb2 : pipelines st2 !! b = Some pb) by by rewrite P2.
  destruct (_pipeline_exit_run b pb st2 C2 Hb2) as (st3 & E3 & C3 & O3 & P3).
  assert (Hc3 : _current_pipeline st3 = Some a) by congruence.
  assert (Ha3 : pipelines st3 !! a = Some pa) by by rewrite P3, P2, P1.
  destruct (_pipeline_exit_run a pa st3 Hc3 Ha3) as (st4 & E4 & C4 & O4 & P4).
  assert (Hc4 : _current_pipeline st4 = Some a) by congruence.
  exists st1, st2, st3, st4.
  repeat split; try done; try congruence.
Qed.

(** ** Fluent configuration *)

(** Two attribute writes in a row on the kfp operation of [self]. *)
Ltac two_updates :=
  mstep ltac:(by apply deref_Ok);
  mstep ltac:(by apply update_kfp_op_run);
  mstep ltac:(apply update_kfp_op_run; by apply list_lookup_insert_eq);
  unfold ret, set_kfp_ops; simpl_state;
  by rewrite list_insert_insert_eq.

(** *** Integers print as the numeral that denotes them *)

Lemma digit_value_char d :
  (d < 10)%N -> digit_value (pretty_N_char d) = Some d.
Proof.
  intros Hd.
  assert (d = 0 \/ d = 1 \/ d = 2 \/ d = 3 \/ d = 4 \/ d = 5 \/ d = 6
          \/ d = 7 \/ d = 8 \/ d = 9)%N as Hcases by lia.
  repeat (destruct Hcases as [-> | Hcases]; [reflexivity|]).
  by subst.
Qed.

Lemma read_digits_pretty x :
  forall s acc, exists k,
    read_digits acc (pretty_N_go x s) = read_digits (acc * 10 ^ k + x) s.
Proof.
  induction (N.lt_wf_0 x) as [x _ IH]; intros s acc.
  assert (x = 0 \/ 0 < x)%N as [-> | Hpos] by lia.
  - exists 0%N. rewrite pretty_N_go_0. f_equal. simpl. lia.
  - rewrite pretty_N_go_step by done.
    destruct (IH (x `div` 10)%N (N.div_lt x 10 Hpos eq_refl)
                (String (pretty_N_char (x `mod` 10)) s) acc) as [k Hk].
    exists (N.succ k). rewrite Hk. simpl.
    rewrite digit_value_char by (apply N.mod_lt; lia).
    f_equal. rewrite N.pow_succ_r'.
    pose proof (N.div_mod x 10 ltac:(lia)). lia.
Qed.

Lemma pretty_N_go_first x s :
  (0 < x)%N ->
  exists c rest,
    pretty_N_go x s = String c rest /\ c <> "0"%char /\ c <> "-"%char.
Proof.
  revert s. induction (N.lt_wf_0 x) as [x _ IH]; intros s Hpos.
  rewrite pretty_N_go_step by done.
  assert (0 < x < 10 \/ 10 <= x)%N as [Hsmall | Hbig] by lia.
  - rewrite N.div_small by lia. rewrite pretty_N_go_0.
    rewrite N.mod_small by lia. eexists _, _. split; [done|].
    assert (x = 1 \/ x = 2 \/ x = 3 \/ x = 4 \/ x = 5 \/ x = 6
            \/ x = 7 \/ x = 8 \/ x = 9)%N as Hcases by lia.
    repeat (destruct Hcases as [-> | Hcases]; [by split|]).
    subst. by split.
  - apply IH; [by apply N.div_lt|]. apply N.div_str_pos. lia.
Qed.

Lemma read_natural_pretty p : read_natural (pretty (Npos p)) = Some (Npos p).
Proof.
  unfold pretty, pretty_N. rewrite decide_False by done.
  destruct (pretty_N_go_first (Npos p) "" ltac:(lia)) as (c & rest & Hs & H0 & _).
  destruct (read_digits_pretty (Npos p) "" 0%N) as [k Hk].
  rewrite Hs in *. unfold read_natural. rewrite decide_False by done.
  rewrite Hk. simpl. f_equal.
Qed.

(** The numeral printed for [z] denotes [z]. *)
Lemma read_decimal_pretty z : read_decimal (pretty z) = Some z.
Proof.
  destruct z as [|p|p].
  - reflexivity.
  - change (pretty (Zpos p)) with (pretty (Npos p)).
    pose proof (read_natural_pretty p) as Hp.
    unfold pretty, pretty_N in *. rewrite decide_False in * by done.
    destruct (pretty_N_go_first (Npos p) "" ltac:(lia)) as (c & rest & Hs & _ & Hd).
    rewrite Hs in *. unfold read_decimal. rewrite decide_False by done.
    by rewrite Hp.
  - change (pretty (Zneg p)) with (String "-" (pretty (Npos p))).
    unfold read_decimal. rewrite decide_True by done.
    by rewrite read_natural_pretty.
Qed.

Lemma py_str_string_form v : string_form v (py_str v).
Proof.
  destruct v as [|[]|z|s]; simpl; try done. apply read_decimal_pretty.
Qed.

(** C8: [with_env(name, value)] appends one variable [name] to the
    environment of the operation's container and returns [self]; the
    operation record is not touched.  The value bound is the string form of
    [value]: a string as it is, [None] as ["None"], the booleans as
    ["True"] and ["False"], and an integer as the decimal numeral that
    denotes it. *)
Theorem with_env_binds_string_form self variable_name v st h c :
  hml_ops st !! self = Some h ->
  kfp_ops st !! op h = Some c ->
  exists st' c' d,
    with_env self variable_name v st = (st', Ok self)
    /\ kfp_ops st' !! op h = Some c'
    /\ co_env c' = co_env c ++ [mkV1EnvVar variable_name d]
    /\ string_form v d
    /\ (forall s, v = LStr s -> d = s)
    /\ hml_ops st' = hml_ops st.
Proof.
  intros Hh Hc.
  assert (op h < length (kfp_ops st)) by by eapply lookup_lt_Some.
  eexists _, _, _. split.
  - unfold with_env.
    mstep ltac:(by apply deref_Ok).
    mstep ltac:(by apply update_kfp_op_run).
    reflexivity.
  - split; [simpl; by apply list_lookup_insert_eq|].
    split; [done|]. split; [apply py_str_string_form|].
    split; [by intros s ->|done].
Qed.

(** C9: each of the six fluent calls succeeds for every argument, applies
    its change to the kfp operation of [self], and returns [self]. *)
Theorem fluent_calls_return_self self st h c :
  hml_ops st !! self = Some h ->
  kfp_ops st !! op h = Some c ->
  let updated g := (set_kfp_ops (<[op h := g c]> (kfp_ops st)) st, Ok self) in
  (forall url, with_image self url st = updated (co_set_image url))
  /\ (forall cmd args,
        with_command self cmd args st
        = updated (fun c => co_set_arguments args (co_set_command cmd c)))
  /\ (forall secret_name mount_path,
        with_secret self secret_name mount_path st
        = updated (fun c =>
             add_volume_mount (mkV1VolumeMount secret_name mount_path)
               (add_volume
                  (mkV1Volume secret_name (V1SecretVolumeSource secret_name))
                  c)))
  /\ (forall secret_name,
        with_gcp_auth self secret_name st = updated (use_gcp_secret secret_name))
  /\ (forall variable_name v,
        with_env self variable_name v st
        = updated (add_env_variable (mkV1EnvVar variable_name (py_str v))))
  /\ (forall vname mount_path,
        with_empty_dir self vname mount_path st
        = updated (fun c =>
             add_volume_mount (mkV1VolumeMount vname mount_path)
               (add_volume (mkV1Volume vname V1EmptyDirVolumeSource) c))).
Proof.
  intros Hh Hc updated. subst updated.
  assert (Hlt : op h < length (kfp_ops st)) by by eapply lookup_lt_Some.
  destruct st as [cur old pls hml kfp al prl lg]; simpl in *.
  repeat split; intros.
  - unfold with_image.
    mstep ltac:(by apply deref_Ok).
    by mstep ltac:(by apply update_kfp_op_run).
  - unfold with_command. two_updates.
  - unfold with_secret. two_updates.
  - unfold with_gcp_auth.
    mstep ltac:(by apply deref_Ok).
    by mstep ltac:(by apply update_kfp_op_run).
  - unfold with_env.
    mstep ltac:(by apply deref_Ok).
    by mstep ltac:(by apply update_kfp_op_run).
  - unfold with_empty_dir. two_updates.
Qed.

(** * Further properties *)

(** ** What a computation leaves of the state, whatever its outcome *)

Lemma bind_state {A B} (m : M A) (k : A -> M B) (Q : state -> state -> Prop) :
  (forall st, Q st (m st).1) ->
  (forall a st, Q st (k a st).1) ->
  (forall s1 s2 s3, Q s1 s2 -> Q s2 s3 -> Q s1 s3) ->
  forall st, Q st (bind m k st).1.
Proof.
  intros Hm Hk Htrans st. unfold bind. specialize (Hm st).
  destruct (m st) as [st1 [a | e |]]; simpl in *; [|done..].
  eapply Htrans; [exact Hm | apply Hk].
Qed.

(** ** Fluent calls as updates of one kfp operation *)

Lemma set_kfp_ops_same st : set_kfp_ops (kfp_ops st) st = st.
Proof. by destruct st. Qed.

Lemma kfp_only_refl st : kfp_only st st.
Proof. exists (kfp_ops st). by rewrite set_kfp_ops_same. Qed.

Lemma kfp_only_trans s1 s2 s3 : kfp_only s1 s2 -> kfp_only s2 s3 -> kfp_only s1 s3.
Proof.
  intros (k1 & L1 & ->) (k2 & L2 & ->). exists k2. split; [|done].
  simpl in L2. congruence.
Qed.

Lemma deref_kfp_only {A} (store : state -> list A) l st :
  kfp_only st (deref store l st).1.
Proof. unfold deref. destruct (store st !! l); apply kfp_only_refl. Qed.

Lemma update_kfp_op_kfp_only l g st : kfp_only st (update_kfp_op l g st).1.
Proof.
  unfold update_kfp_op, bind, deref.
  destruct (kfp_ops st !! l) as [c|]; simpl; [|apply kfp_only_refl].
  eexists. split; [|done]. apply length_insert.
Qed.

Lemma configure_kfp_only self c st : kfp_only st (configure self c st).1.
Proof.
  revert st.
  destruct c; simpl;
    unfold with_image, with_command, with_secret, with_gcp_auth, with_env,
      with_empty_dir;
    repeat (first [ intros st; first [ apply deref_kfp_only
                                     | apply update_kfp_op_kfp_only
                                     | apply kfp_only_refl ]
                  | apply (bind_state _ _ kfp_only);
                    [| intros ? | exact kfp_only_trans] ]).
Qed.

(** A fluent call on a live operation is one update of its kfp operation. *)
Lemma configure_run self c st h o :
  hml_ops st !! self = Some h ->
  kfp_ops st !! op h = Some o ->
  configure self c st
  = (set_kfp_ops (<[op h := fluent_effect c o]> (kfp_ops st)) st, Ok self).
Proof.
  intros Hh Ho.
  assert (Hlt : op h < length (kfp_ops st)) by by eapply lookup_lt_Some.
  destruct st as [cur old pls hml kfp al prl lg]; simpl in *.
  destruct c; simpl.
  - unfold with_image.
    mstep ltac:(by apply deref_Ok).
    by mstep ltac:(by apply update_kfp_op_run).
  - unfold with_command. two_updates.
  - unfold with_secret. two_updates.
  - unfold with_gcp_auth.
    mstep ltac:(by apply deref_Ok).
    by mstep ltac:(by apply update_kfp_op_run).
  - unfold with_env.
    mstep ltac:(by apply deref_Ok).
    by mstep ltac:(by apply update_kfp_op_run).
  - unfold with_empty_dir. two_updates.
Qed.

Lemma chain_run cs : forall self st h o,
  hml_ops st !! self = Some h ->
  kfp_ops st !! op h = Some o ->
  chain self cs st
  = (set_kfp_ops
       (<[op h := fold_left (fun o c => fluent_effect c o) cs o]> (kfp_ops st))
       st, Ok self).
Proof.
  induction cs as [|c cs IH]; intros self st h o Hh Ho.
  - simpl. unfold ret. rewrite (list_insert_id _ _ _ Ho).
    by rewrite set_kfp_ops_same.
  - assert (Hlt : op h < length (kfp_ops st)) by by eapply lookup_lt_Some.
    simpl. rewrite (bind_Ok _ _ _ _ _ (configure_run self c st h o Hh Ho)).
    rewrite (IH self _ h (fluent_effect c o)).
    + destruct st; unfold set_kfp_ops; simpl.
      by rewrite list_insert_insert_eq.
    + done.
    + simpl. by apply list_lookup_insert_eq.
Qed.


(** X2: a chain of fluent calls on a live operation succeeds and returns
    that operation; its kfp operation ends up with the effects of the
    calls applied in call order, and every other kfp operation is as it
    was. *)
Theorem chain_composes_effects self cs st h o :
  hml_ops st !! self = Some h ->
  kfp_ops st !! op h = Some o ->
  exists st',
    chain self cs st = (st', Ok self)
    /\ kfp_ops st' !! op h
       = Some (fold_left (fun o c => fluent_effect c o) cs o)
    /\ (forall l, l <> op h -> kfp_ops st' !! l = kfp_ops st !! l)
    /\ hml_ops st' = hml_ops st.
Proof.
  intros Hh Ho.
  assert (Hlt : op h < length (kfp_ops st)) by by eapply lookup_lt_Some.
  eexists. split; [by apply chain_run|].
  split; [simpl; by apply list_lookup_insert_eq|].
  split; [|done].
  intros l Hl. simpl. by apply list_lookup_insert_ne.
Qed.

(** X3: [with_image] is last-write-wins: setting the image twice leaves
    the same state as setting the second image alone. *)
Theorem with_image_last_write_wins self url1 url2 st h o :
  hml_ops st !! self = Some h ->
  kfp_ops st !! op h = Some o ->
  chain self [FImage url1; FImage url2] st = with_image self url2 st.
Proof.
  intros Hh Ho.
  rewrite (chain_run _ _ _ _ _ Hh Ho).
  symmetry. exact (configure_run self (FImage url2) st h o Hh Ho).
Qed.

(** X4: [with_env] never overwrites: two calls add two variables, in call
    order, also when both carry the same name. *)
Theorem with_env_accumulates self n v1 v2 st h o :
  hml_ops st !! self = Some h ->
  kfp_ops st !! op h = Some o ->
  exists st' o',
    chain self [FEnv n v1; FEnv n v2] st = (st', Ok self)
    /\ kfp_ops st' !! op h = Some o'
    /\ co_env o' = co_env o ++ [mkV1EnvVar n (py_str v1); mkV1EnvVar n (py_str v2)].
Proof.
  intros Hh Ho.
  assert (Hlt : op h < length (kfp_ops st)) by by eapply lookup_lt_Some.
  eexists _, _. split; [by apply chain_run|].
  split; [simpl; by apply list_lookup_insert_eq|].
  simpl. by rewrite <- app_assoc.
Qed.

(** X5: setting the image commutes with replacing the command, setting an
    environment variable, mounting a secret and mounting a scratch volume:
    either order leaves the same state. *)
Theorem with_image_commutes self url st h o :
  hml_ops st !! self = Some h ->
  kfp_ops st !! op h = Some o ->
  (forall cmd args,
      chain self [FImage url; FCommand cmd args] st
      = chain self [FCommand cmd args; FImage url] st)
  /\ (forall n v,
        chain self [FImage url; FEnv n v] st = chain self [FEnv n v; FImage url] st)
  /\ (forall n p,
        chain self [FImage url; FSecret n p] st
        = chain self [FSecret n p; FImage url] st)
  /\ (forall n p,
        chain self [FImage url; FEmptyDir n p] st
        = chain self [FEmptyDir n p; FImage url] st).
Proof.
  intros Hh Ho.
  repeat split; intros; by rewrite !(chain_run _ _ _ _ _ Hh Ho).
Qed.

Lemma with_command_run self cmd args st h o :
  hml_ops st !! self = Some h ->
  kfp_ops st !! op h = Some o ->
  with_command self cmd args st
  = (set_kfp_ops
       (<[op h := co_set_arguments args (co_set_command cmd o)]> (kfp_ops st))
       st, Ok self).
Proof.
  intros Hh Ho.
  assert (Hlt : op h < length (kfp_ops st)) by by eapply lookup_lt_Some.
  destruct st as [cur old pls hml kfp al prl lg]; simpl in *.
  unfold with_command. two_updates.
Qed.

(** X6: [with_command] replaces the command and the argument list of the
    kfp operation, while [self.arguments], the list built at registration,
    stays as it was. *)
Theorem with_command_keeps_generated_arguments self cmd args st h o :
  hml_ops st !! self = Some h ->
  kfp_ops st !! op h = Some o ->
  exists st' o',
    with_command self cmd args st = (st', Ok self)
    /\ kfp_ops st' !! op h = Some o'
    /\ co_command o' = cmd
    /\ co_arguments o' = args
    /\ op_arguments st' self = op_arguments st self.
Proof.
  intros Hh Ho.
  assert (Hlt : op h < length (kfp_ops st)) by by eapply lookup_lt_Some.
  eexists _, _.
  split; [by apply (with_command_run self cmd args st h o)|].
  split; [simpl; by apply list_lookup_insert_eq|].
  by repeat split.
Qed.

(** ** Activation, step by step *)

Lemma _pipeline_enter_exact p pl st :
  pipelines st !! p = Some pl ->
  _pipeline_enter p st
  = (mkState (Some p) (_current_pipeline st) (pipelines st) (hml_ops st)
       (kfp_ops st) (arg_lists st) (param_lists st)
       (log st ++ [(INFO, "_pipeline_enter: " +:+ pl_name pl)]), Ok tt).
Proof.
  intros Hpl. unfold _pipeline_enter.
  mstep ltac:(by apply deref_Ok).
  mstep ltac:(reflexivity).
  mstep ltac:(reflexivity).
  reflexivity.
Qed.

Lemma _pipeline_exit_exact c pl st :
  _current_pipeline st = Some c ->
  pipelines st !! c = Some pl ->
  _pipeline_exit st
  = (mkState (_old_pipeline st) (_old_pipeline st) (pipelines st) (hml_ops st)
       (kfp_ops st) (arg_lists st) (param_lists st)
       (log st ++ [(INFO, "_pipeline_exit: " +:+ pl_name pl)]), Ok tt).
Proof.
  intros Hcur Hpl. unfold _pipeline_exit.
  mstep ltac:(reflexivity).
  rewrite Hcur.
  mstep ltac:(by apply deref_Ok).
  mstep ltac:(reflexivity).
  mstep ltac:(reflexivity).
  reflexivity.
Qed.

(** X7: one [enter(P)] followed by one [exit()] puts the current pointer
    back to what it was, set or unset, and touches no pipeline, operation
    or list; it logs the two calls, and the backup slot ends up holding the
    pointer that was current, whatever it held before. *)
Theorem enter_exit_round_trip p pl st :
  pipelines st !! p = Some pl ->
  exists st1 st2,
    _pipeline_enter p st = (st1, Ok tt)
    /\ _pipeline_exit st1 = (st2, Ok tt)
    /\ _current_pipeline st2 = _current_pipeline st
    /\ _old_pipeline st2 = _current_pipeline st
    /\ pipelines st2 = pipelines st
    /\ hml_ops st2 = hml_ops st
    /\ kfp_ops st2 = kfp_ops st
    /\ arg_lists st2 = arg_lists st
    /\ param_lists st2 = param_lists st
    /\ log st2 = log st ++ [(INFO, "_pipeline_enter: " +:+ pl_name pl);
                            (INFO, "_pipeline_exit: " +:+ pl_name pl)].
Proof.
  intros Hpl. eexists _, _.
  split; [by apply _pipeline_enter_exact|].
  split; [by apply (_pipeline_exit_exact p pl)|].
  simpl. repeat split; try done. by rewrite <- app_assoc.
Qed.

(** X8: one [exit()] too many raises: with nothing current, [enter(P)] and
    [exit()] succeed, and a further [exit()] fails on reading the name of
    the absent pipeline, leaving the state as it was. *)
Theorem exit_without_enter_raises p pl st :
  _current_pipeline st = None ->
  pipelines st !! p = Some pl ->
  exists st1 st2,
    _pipeline_enter p st = (st1, Ok tt)
    /\ _pipeline_exit st1 = (st2, Ok tt)
    /\ _pipeline_exit st2
       = (st2, Raise (AttributeError "'NoneType' object has no attribute 'name'")).
Proof.
  intros Hcur Hpl. eexists _, _.
  split; [by apply _pipeline_enter_exact|].
  split; [by apply (_pipeline_exit_exact p pl)|].
  by apply _pipeline_exit_unset.
Qed.

(** ** More on what registration builds *)

(** X9: an argument that refers to the kfp operation [src] is recorded as
    a bound input named after the parameter, with the sanitized name of
    [src] as its operation and no value. *)
Theorem output_reference_bound_input f kw st p pl i k c src :
  _current_pipeline st = Some p ->
  pipelines st !! p = Some pl ->
  dict_wf kw ->
  kwargs_live (kfp_ops st) kw = true ->
  kw !! i = Some (k, VContainerOp c) ->
  kfp_ops st !! c = Some src ->
  exists st' self ins,
    HmlContainerOp_init f kw st = (st', Ok self)
    /\ op_inputs st' self = Some ins
    /\ ins !! i
       = Some (mkPipelineParam k (Some (sanitize_k8s_name (co_name src))) None).
Proof.
  intros Hcur Hpl Hwf Hlive Hi Hsrc. eexists _, _, _.
  split; [by apply init_run|].
  split; [apply registered_inputs|].
  rewrite (expected_inputs_lookup _ _ _ _ Hi).
  unfold expected_input, source_op_id. simpl. by rewrite Hsrc.
Qed.

(** X10: the operation and the kfp operation that registration builds:
    the operation is named after the function, keeps the keyword arguments
    as given and is owned by the current pipeline; the kfp operation takes
    its image and command from that pipeline, points back at the operation,
    and shares the operation's argument list and list of inputs (the same
    list objects, not copies). *)
Theorem registration_builds_linked_pair f kw st p pl :
  _current_pipeline st = Some p ->
  pipelines st !! p = Some pl ->
  dict_wf kw ->
  kwargs_live (kfp_ops st) kw = true ->
  exists st' self h o,
    HmlContainerOp_init f kw st = (st', Ok self)
    /\ hml_ops st' !! self = Some h
    /\ kfp_ops st' !! op h = Some o
    /\ (func h = f /\ name h = fn_name f
        /\ k8s_name h = sanitize_k8s_name (fn_name f)
        /\ kwargs h = kw /\ pipeline h = p
        /\ cli_command h = mkClickCommand (fn_name f) f)
    /\ (co_name o = fn_name f /\ co_image o = image_url pl
        /\ co_command o = package_entrypoint pl)
    /\ (co_arguments o = arguments h /\ co_inputs o = Some (inputs h)
        /\ co_hml_op o = Some self)
    /\ (co_volumes o = [] /\ co_volume_mounts o = [] /\ co_env o = []).
Proof.
  intros Hcur Hpl Hwf Hlive. eexists _, _, _, _.
  split; [by apply init_run|].
  split; [simpl; apply lookup_snoc_here|].
  split; [simpl; apply lookup_snoc_here|].
  by repeat split.
Qed.

(** X11: registration only adds: every operation, kfp operation, argument
    list and list of inputs that existed is unchanged, every pipeline other
    than the current one is unchanged, the current one keeps its name,
    image and command, and the two pointers are as they were. *)
Theorem registration_only_adds f kw st p pl :
  _current_pipeline st = Some p ->
  pipelines st !! p = Some pl ->
  dict_wf kw ->
  kwargs_live (kfp_ops st) kw = true ->
  exists st' self pl',
    HmlContainerOp_init f kw st = (st', Ok self)
    /\ (forall o, o < length (hml_ops st) -> hml_ops st' !! o = hml_ops st !! o)
    /\ (forall o, o < length (kfp_ops st) -> kfp_ops st' !! o = kfp_ops st !! o)
    /\ (forall l, l < length (arg_lists st) -> arg_lists st' !! l = arg_lists st !! l)
    /\ (forall l, l < length (param_lists st) ->
          param_lists st' !! l = param_lists st !! l)
    /\ (forall q, q <> p -> pipelines st' !! q = pipelines st !! q)
    /\ pipelines st' !! p = Some pl'
    /\ (pl_name pl' = pl_name pl /\ image_url pl' = image_url pl
        /\ package_entrypoint pl' = package_entrypoint pl)
    /\ _current_pipeline st' = _current_pipeline st
    /\ _old_pipeline st' = _old_pipeline st.
Proof.
  intros Hcur Hpl Hwf Hlive.
  assert (Hp : p < length (pipelines st)) by by eapply lookup_lt_Some.
  eexists _, _, _.
  split; [by apply init_run|]. simpl.
  split; [intros o Ho; by apply lookup_app_l|].
  split; [intros o Ho; by apply lookup_app_l|].
  split; [intros o Ho; by apply lookup_app_l|].
  split; [intros o Ho; by apply lookup_app_l|].
  split; [intros q Hq; by apply list_lookup_insert_ne|].
  split; [by apply list_lookup_insert_eq|].
  done.
Qed.

Lemma lookup_app_map_r {A B} (g : A -> B) (pre : list B) (l : list A) i x :
  l !! i = Some x -> (pre ++ map g l) !! (length pre + i) = Some (g x).
Proof.
  intros Hi. rewrite lookup_app_r by lia.
  replace (length pre + i - length pre) with i by lia.
  change (map g l) with (g <$> l). by rewrite list_lookup_fmap, Hi.
Qed.

(** X12: registration logs one record per keyword argument, in the order
    of the mapping and at level INFO; the record of a literal argument
    spells out the value itself. *)
Theorem registration_logs_each_binding f kw st p pl :
  _current_pipeline st = Some p ->
  pipelines st !! p = Some pl ->
  dict_wf kw ->
  kwargs_live (kfp_ops st) kw = true ->
  exists st' self,
    HmlContainerOp_init f kw st = (st', Ok self)
    /\ length (log st') = length (log st) + length kw
    /\ (forall j r, j < length (log st) -> log st !! j = Some r -> log st' !! j = Some r)
    /\ (forall i k v, kw !! i = Some (k, v) ->
          exists msg, log st' !! (length (log st) + i) = Some (INFO, msg))
    /\ (forall i k v, kw !! i = Some (k, VLit v) ->
          log st' !! (length (log st) + i)
          = Some (INFO, "Binding input value for " +:+ fn_name f +:+ " -> "
                        +:+ k +:+ ": " +:+ py_str v)).
Proof.
  intros Hcur Hpl Hwf Hlive. eexists _, _.
  split; [by apply init_run|]. simpl.
  split; [by rewrite length_app, length_map|].
  split; [intros j r Hj Hr; by rewrite lookup_app_l|].
  split.
  - intros i k v Hi. eexists.
    by rewrite (lookup_app_map_r _ _ _ _ _ Hi).
  - intros i k v Hi. by rewrite (lookup_app_map_r _ _ _ _ _ Hi).
Qed.

(** X13: operations go to the pipeline entered last: after [enter(A)] and
    [enter(B)] a registration is appended to [B] and owned by [B], while
    [A] is left as it was; after [exit()] the next registration goes to
    [A]. *)
Theorem registration_goes_to_innermost f kw st a b pa pb :
  a <> b ->
  pipelines st !! a = Some pa ->
  pipelines st !! b = Some pb ->
  dict_wf kw ->
  kwargs_live (kfp_ops st) kw = true ->
  exists st1 st2 st3 self st4 st5 self',
    _pipeline_enter a st = (st1, Ok tt)
    /\ _pipeline_enter b st1 = (st2, Ok tt)
    /\ HmlContainerOp_init f kw st2 = (st3, Ok self)
    /\ ops_list <$> pipelines st3 !! b = Some (ops_list pb ++ [self])
    /\ pipelines st3 !! a = Some pa
    /\ pipeline <$> hml_ops st3 !! self = Some b
    /\ _pipeline_exit st3 = (st4, Ok tt)
    /\ HmlContainerOp_init f kw st4 = (st5, Ok self')
    /\ ops_list <$> pipelines st5 !! a = Some (ops_list pa ++ [self'])
    /\ ops_list <$> pipelines st5 !! b = Some (ops_list pb ++ [self])
    /\ pipeline <$> hml_ops st5 !! self' = Some a.
Proof.
  intros Hab Ha Hb Hwf Hlive.
  assert (Hla : a < length (pipelines st)) by by eapply lookup_lt_Some.
  assert (Hlb : b < length (pipelines st)) by by eapply lookup_lt_Some.
  set (st1 := mkState (Some a) (_current_pipeline st) (pipelines st)
                (hml_ops st) (kfp_ops st) (arg_lists st) (param_lists st)
                (log st ++ [(INFO, "_pipeline_enter: " +:+ pl_name pa)])).
  set (st2 := mkState (Some b) (Some a) (pipelines st)
                (hml_ops st) (kfp_ops st) (arg_lists st) (param_lists st)
                (log st1 ++ [(INFO, "_pipeline_enter: " +:+ pl_name pb)])).
  set (st3 := registered_state f kw b pb st2).
  set (pb' := mkHmlPipeline (pl_name pb) (image_url pb) (package_entrypoint pb)
                (ops_list pb ++ [length (hml_ops st)])).
  assert (Hb3 : pipelines st3 !! b = Some pb')
    by (simpl; by apply list_lookup_insert_eq).
  assert (Ha3 : pipelines st3 !! a = Some pa)
    by (simpl; by rewrite list_lookup_insert_ne).
  set (st4 := mkState (Some a) (Some a) (pipelines st3) (hml_ops st3)
                (kfp_ops st3) (arg_lists st3) (param_lists st3)
                (log st3 ++ [(INFO, "_pipeline_exit: " +:+ pl_name pb')])).
  exists st1, st2, st3, (length (hml_ops st)), st4,
    (registered_state f kw a pa st4), (length (hml_ops st4)).
  split; [by apply _pipeline_enter_exact|].
  split; [by apply (_pipeline_enter_exact b pb st1)|].
  split; [exact (init_run f kw st2 b pb eq_refl Hb Hwf Hlive)|].
  split; [by rewrite Hb3|].
  split; [done|].
  split; [simpl; by rewrite lookup_snoc_here|].
  split; [by apply (_pipeline_exit_exact b pb' st3)|].
  split.
  { apply (init_run f kw st4 a pa eq_refl Ha3 Hwf).
    simpl. by apply kwargs_live_grow. }
  split.
  { simpl. rewrite list_lookup_insert_eq; [done|]. by rewrite length_insert. }
  split.
  { simpl. rewrite list_lookup_insert_ne by done.
    by rewrite list_lookup_insert_eq. }
  simpl. by rewrite (lookup_snoc_here (hml_ops st ++ _)).
Qed.

Lemma flat_map_insert_same {A B} (g : A -> list B) (l : list A) i x y :
  l !! i = Some x -> g y = g x -> flat_map g (<[i := y]> l) = flat_map g l.
Proof.
  revert i. induction l as [|z l IH]; intros [|i] Hi Hg; simpl in *; try done.
  - inversion Hi; subst. by rewrite Hg.
  - by rewrite IH.
Qed.

Lemma map_insert_same {A B} (g : A -> B) (l : list A) i x y :
  l !! i = Some x -> g y = g x -> map g (<[i := y]> l) = map g l.
Proof.
  revert i. induction l as [|z l IH]; intros [|i] Hi Hg; simpl in *; try done.
  - inversion Hi; subst. by rewrite Hg.
  - by rewrite IH.
Qed.

Lemma kwargs_live_insert kfp (kw : dict) i e :
  kwargs_live kfp kw = true -> value_live kfp e.2 = true ->
  kwargs_live kfp (<[i := e]> kw) = true.
Proof.
  unfold kwargs_live. revert i.
  induction kw as [|z kw IH]; intros [|i] H He; simpl in *; try done.
  - apply andb_true_iff in H as [_ H]. by rewrite He.
  - apply andb_true_iff in H as [Hz H]. rewrite Hz. simpl. by apply IH.
Qed.

(** X14: a reference names its source by sanitized name and by nothing
    else: replacing a referenced kfp operation by another one of the same
    name leaves the argument list and the bound inputs of the new
    operation the same. *)
Theorem output_reference_is_by_name f kw st p pl i k c1 c2 src1 src2 :
  _current_pipeline st = Some p ->
  pipelines st !! p = Some pl ->
  dict_wf kw ->
  kwargs_live (kfp_ops st) kw = true ->
  kw !! i = Some (k, VContainerOp c1) ->
  kfp_ops st !! c1 = Some src1 ->
  kfp_ops st !! c2 = Some src2 ->
  co_name src1 = co_name src2 ->
  exists st1 self1 st2 self2,
    HmlContainerOp_init f kw st = (st1, Ok self1)
    /\ HmlContainerOp_init f (<[i := (k, VContainerOp c2)]> kw) st
       = (st2, Ok self2)
    /\ op_arguments st2 self2 = op_arguments st1 self1
    /\ op_inputs st2 self2 = op_inputs st1 self1.
Proof.
  intros Hcur Hpl Hwf Hlive Hi H1 H2 Hname.
  assert (Hwf' : dict_wf (<[i := (k, VContainerOp c2)]> kw)).
  { unfold dict_wf, dict_keys in *. rewrite list_fmap_insert. simpl.
    rewrite list_insert_id; [done|]. by rewrite list_lookup_fmap, Hi. }
  assert (Hlive' : kwargs_live (kfp_ops st) (<[i := (k, VContainerOp c2)]> kw)
                   = true).
  { apply kwargs_live_insert; [done|]. simpl. apply bool_decide_eq_true.
    by eapply lookup_lt_Some. }
  eexists _, _, _, _.
  split; [by apply init_run|].
  split; [by apply init_run|].
  rewrite !registered_arguments, !registered_inputs.
  unfold expected_arguments. split; f_equal.
  - f_equal. apply (flat_map_insert_same _ _ _ _ _ Hi).
    unfold expected_pair, expected_token, source_op_id. simpl.
    by rewrite H1, H2, Hname.
  - apply (map_insert_same _ _ _ _ _ Hi).
    unfold expected_input, source_op_id. simpl.
    by rewrite H1, H2, Hname.
Qed.

(** ** Invocation *)

(** X15: [invoke] on a registered operation is the wrapped function called
    with the keyword arguments exactly as they were given at registration,
    raw values and not their command-line tokens; its result is the
    function's result; and fluent calls made in between change nothing of
    that. *)
Theorem invoke_calls_function_with_given_kwargs f kw st p pl :
  _current_pipeline st = Some p ->
  pipelines st !! p = Some pl ->
  dict_wf kw ->
  kwargs_live (kfp_ops st) kw = true ->
  exists st' self,
    HmlContainerOp_init f kw st = (st', Ok self)
    /\ invoke self st' = call_function f kw st'
    /\ forall cs,
         (chain self cs st').2 = Ok self
         /\ invoke self (chain self cs st').1
            = call_function f kw (chain self cs st').1.
Proof.
  intros Hcur Hpl Hwf Hlive. eexists _, _.
  split; [by apply init_run|].
  set (st' := registered_state f kw p pl st).
  assert (Hh : exists h, hml_ops st' !! length (hml_ops st) = Some h
                         /\ func h = f /\ kwargs h = kw
                         /\ exists o, kfp_ops st' !! op h = Some o).
  { eexists. split; [simpl; apply lookup_snoc_here|].
    split; [done|]. split; [done|]. eexists. simpl. apply lookup_snoc_here. }
  destruct Hh as (h & Hh & Hf & Hk & o & Ho).
  split.
  - unfold invoke. rewrite (bind_Ok _ _ _ _ _ (deref_Ok _ _ _ _ Hh)).
    by rewrite Hf, Hk.
  - intros cs. rewrite (chain_run cs _ _ _ _ Hh Ho). simpl. split; [done|].
    unfold invoke. erewrite bind_Ok; [|apply deref_Ok; simpl; exact Hh].
    by rewrite Hf, Hk.
Qed.

(** ** Ownership links are kept by every call *)

Lemma grows_refl st : grows st st.
Proof. by repeat split. Qed.

Lemma grows_trans s1 s2 s3 : grows s1 s2 -> grows s2 s3 -> grows s1 s3.
Proof.
  intros (A1 & B1 & C1 & D1 & E1 & F1 & G1) (A2 & B2 & C2 & D2 & E2 & F2 & G2).
  repeat split; try congruence; lia.
Qed.

Lemma linked_grows st st' : grows st st' -> linked st -> linked st'.
Proof.
  intros (Hc & Ho & Hp & Hh & Hk & Ha & Hpr) [L1 L2 L3 L4 L5 L6].
  split; rewrite ?Hc, ?Ho, ?Hp, ?Hh; try done.
  intros o h Hoh. destruct (L6 o h Hoh) as (? & ? & ?).
  repeat split; lia.
Qed.

Lemma kfp_only_grows st st' : kfp_only st st' -> grows st st'.
Proof. intros (k & Hlen & ->). repeat split; simpl; try done. lia. Qed.

Lemma deref_grows {A} (store : state -> list A) l st :
  grows st (deref store l st).1.
Proof. unfold deref. destruct (store st !! l); apply grows_refl. Qed.

Lemma logging_grows lvl msg st : grows st (logging lvl msg st).1.
Proof. by repeat split. Qed.

Lemma append_arg_grows l a st : grows st (append_arg l a st).1.
Proof.
  unfold append_arg, bind, deref.
  destruct (arg_lists st !! l); simpl; [|apply grows_refl].
  repeat split; simpl; try done. by rewrite length_insert.
Qed.

Lemma append_param_grows l p st : grows st (append_param l p st).1.
Proof.
  unfold append_param, bind, deref.
  destruct (param_lists st !! l); simpl; [|apply grows_refl].
  repeat split; simpl; try done. by rewrite length_insert.
Qed.

Lemma dict_getitem_grows kw k st : grows st (dict_getitem kw k st).1.
Proof. unfold dict_getitem. destruct (dict_get kw k); apply grows_refl. Qed.

Ltac grows_steps :=
  repeat (first [ intros ?st;
                  first [ apply deref_grows | apply logging_grows
                        | apply append_arg_grows | apply append_param_grows
                        | apply dict_getitem_grows | apply grows_refl ]
                | apply (bind_state _ _ grows);
                  [| intros ? | exact grows_trans] ]).

Lemma bind_input_grows self_name kw la li k st :
  grows st (bind_input self_name kw la li k st).1.
Proof.
  revert st. unfold bind_input.
  apply (bind_state _ _ grows); [| intros v | exact grows_trans].
  { intros st. apply dict_getitem_grows. }
  apply (bind_state _ _ grows); [| intros ? | exact grows_trans].
  - destruct v; grows_steps.
  - intros st. apply append_param_grows.
Qed.

Lemma for_each_grows self_name kw la li keys st :
  grows st (for_each keys (bind_input self_name kw la li) st).1.
Proof.
  revert st. induction keys as [|k keys IH]; simpl.
  - intros st. apply grows_refl.
  - apply (bind_state _ _ grows); [| intros _ | exact grows_trans].
    + intros st. apply bind_input_grows.
    + exact IH.
Qed.

Lemma _pipeline_enter_linked p st : linked st -> linked (_pipeline_enter p st).1.
Proof.
  intros L. destruct (pipelines st !! p) as [pl|] eqn:Hpl.
  - rewrite (_pipeline_enter_exact p pl st Hpl). simpl.
    destruct L as [L1 L2 L3 L4 L5 L6]. split; simpl; try done.
    intros q [= <-]. by eapply lookup_lt_Some.
  - unfold _pipeline_enter, bind, deref. by rewrite Hpl.
Qed.

Lemma _pipeline_exit_linked st : linked st -> linked (_pipeline_exit st).1.
Proof.
  intros L. destruct (_current_pipeline st) as [c|] eqn:Hcur.
  - destruct (pipelines st !! c) as [pl|] eqn:Hpl.
    + rewrite (_pipeline_exit_exact c pl st Hcur Hpl). simpl.
      by destruct L as [L1 L2 L3 L4 L5 L6].
    + unfold _pipeline_exit, bind, get_current, deref. simpl.
      by rewrite Hcur, Hpl.
  - by rewrite _pipeline_exit_unset.
Qed.

Lemma configure_linked self c st : linked st -> linked (configure self c st).1.
Proof.
  apply linked_grows, kfp_only_grows, configure_kfp_only.
Qed.

(** The links once operation [h], owned by [p], has been stored and listed. *)
Lemma linked_after_registration st p pl h kfp' al' prl' lg' :
  linked st ->
  pipelines st !! p = Some pl ->
  pipeline h = p ->
  arguments h < length al' -> inputs h < length prl' -> op h < length kfp' ->
  length (kfp_ops st) <= length kfp' ->
  length (arg_lists st) <= length al' ->
  length (param_lists st) <= length prl' ->
  linked (mkState (_current_pipeline st) (_old_pipeline st)
            (<[p := mkHmlPipeline (pl_name pl) (image_url pl)
                      (package_entrypoint pl)
                      (ops_list pl ++ [length (hml_ops st)])]> (pipelines st))
            (hml_ops st ++ [h]) kfp' al' prl' lg').
Proof.
  intros [L1 L2 L3 L4 L5 L6] Hpl Hown Ha Hi Ho Hk Hal Hprl.
  assert (Hp : p < length (pipelines st)) by by eapply lookup_lt_Some.
  assert (Hfresh : forall o, o ∈ ops_list pl -> o < length (hml_ops st)).
  { intros o Ho'. destruct (L3 p pl o Hpl Ho') as (h' & Hh' & _).
    by eapply lookup_lt_Some. }
  split; simpl.
  - intros q Hq. rewrite length_insert. by apply L1.
  - intros q Hq. rewrite length_insert. by apply L2.
  - intros q pl' o Hq Ho'. destruct (decide (q = p)) as [->|Hne].
    + rewrite list_lookup_insert_eq in Hq by done.
      injection Hq as <-. simpl in Ho'.
      apply elem_of_app in Ho' as [Ho'|Ho'].
      * destruct (L3 p pl o Hpl Ho') as (h' & Hh' & Hp').
        exists h'. split; [|done]. rewrite lookup_app_l; [done|].
        by eapply lookup_lt_Some.
      * apply list_elem_of_singleton in Ho' as ->.
        exists h. split; [apply lookup_snoc_here | done].
    + rewrite list_lookup_insert_ne in Hq by done.
      destruct (L3 q pl' o Hq Ho') as (h' & Hh' & Hp').
      exists h'. split; [|done]. rewrite lookup_app_l; [done|].
      by eapply lookup_lt_Some.
  - intros o h' Hh'.
    assert (Hcase : hml_ops st !! o = Some h'
                    \/ (o = length (hml_ops st) /\ h' = h)).
    { destruct (decide (o < length (hml_ops st))) as [Hlt|Hge].
      - left. by rewrite lookup_app_l in Hh'.
      - right. rewrite lookup_app_r in Hh' by lia.
        destruct (o - length (hml_ops st)) as [|n] eqn:Hn; simpl in Hh';
          [|done]. injection Hh' as <-. split; [lia|done]. }
    destruct Hcase as [Hold | [-> ->]].
    + destruct (L4 o h' Hold) as (pl0 & Hpl0 & Hin).
      destruct (decide (pipeline h' = p)) as [Heq|Hne].
      * rewrite Heq in *. eexists. split; [by apply list_lookup_insert_eq|].
        simpl. apply elem_of_app. left. congruence.
      * exists pl0. split; [by rewrite list_lookup_insert_ne|done].
    + rewrite Hown. eexists. split; [by apply list_lookup_insert_eq|].
      simpl. apply elem_of_app. right. by apply list_elem_of_singleton.
  - intros q pl' Hq. destruct (decide (q = p)) as [->|Hne].
    + rewrite list_lookup_insert_eq in Hq by done.
      injection Hq as <-. simpl. apply NoDup_app.
      split; [by eapply L5|]. split; [|apply NoDup_singleton].
      intros o Ho' Hself. apply list_elem_of_singleton in Hself as ->.
      specialize (Hfresh _ Ho'). lia.
    + rewrite list_lookup_insert_ne in Hq by done. by eapply L5.
  - intros o h' Hh'.
    destruct (decide (o < length (hml_ops st))) as [Hlt|Hge].
    + rewrite lookup_app_l in Hh' by done.
      destruct (L6 o h' Hh') as (? & ? & ?). repeat split; lia.
    + rewrite lookup_app_r in Hh' by lia.
      destruct (o - length (hml_ops st)) as [|n]; simpl in Hh'; [|done].
      by injection Hh' as <-.
Qed.

Lemma HmlContainerOp_init_linked f kw st :
  linked st -> linked (HmlContainerOp_init f kw st).1.
Proof.
  intros L. unfold HmlContainerOp_init.
  destruct st as [cur old pls hml kfp al prl lg].
  mstep ltac:(reflexivity).
  mstep ltac:(reflexivity).
  destruct cur as [p|].
  - mstep ltac:(reflexivity).
    mstep ltac:(reflexivity).
    assert (Hpl : exists pl, pls !! p = Some pl).
    { apply lookup_lt_is_Some_2. by apply (linked_current _ L). }
    destruct Hpl as [pl Hpl].
    mstep ltac:(by apply deref_Ok).
    mstep ltac:(reflexivity).
    match goal with
    | |- linked (bind (for_each ?ks ?body) ?k ?s2).1 =>
        pose proof (for_each_grows (fn_name f) kw (length al) (length prl)
                      ks s2) as G;
        unfold bind at 1; destruct (for_each ks body s2) as [s3 [[] | e |]]
    end.
    + destruct s3 as [cur3 old3 pls3 hml3 kfp3 al3 prl3 lg3].
      destruct G as (Gc & Go & Gp & Gh & Gk & Ga & Gpr). simpl in *. subst.
      rewrite !length_app in Ga, Gpr. simpl in Ga, Gpr.
      mstep ltac:(by apply deref_Ok).
      mstep ltac:(reflexivity).
      mstep ltac:(apply update_kfp_op_run; apply lookup_snoc_here).
      mstep ltac:(apply update_kfp_op_run; simpl; rewrite insert_snoc;
                  apply lookup_snoc_here).
      mstep ltac:(reflexivity).
      unfold _add_op.
      mstep ltac:(by apply deref_Ok).
      mstep ltac:(reflexivity).
      unfold ret, set_pipelines. simpl.
      apply (linked_after_registration
               (mkState (Some p) old pls hml kfp al prl lg) p pl); simpl;
        try done; try lia;
        rewrite !length_insert, length_app; simpl; lia.
    + simpl. eapply linked_grows; [|exact L].
      eapply grows_trans; [|exact G].
      repeat split; simpl; try done; rewrite ?length_app; lia.
    + simpl. eapply linked_grows; [|exact L].
      eapply grows_trans; [|exact G].
      repeat split; simpl; try done; rewrite ?length_app; lia.
  - mstep ltac:(reflexivity).
    mstep ltac:(reflexivity).
    simpl. eapply linked_grows; [|exact L].
    repeat split; simpl; try done; rewrite ?length_app; lia.
Qed.

Lemma run_call_linked c st : linked st -> linked (run_call c st).
Proof.
  destruct c; simpl.
  - apply _pipeline_enter_linked.
  - apply _pipeline_exit_linked.
  - apply HmlContainerOp_init_linked.
  - apply configure_linked.
Qed.

Lemma run_calls_linked cs : forall st, linked st -> linked (run_calls cs st).
Proof.
  induction cs as [|c cs IH]; intros st L; simpl; [done|].
  apply IH. by apply run_call_linked.
Qed.

Lemma fresh_module_linked pls :
  Forall (fun pl => ops_list pl = []) pls -> linked (fresh_module pls).
Proof.
  intros Hempty. split; simpl; try done.
  - intros p pl o Hpl Ho. rewrite Forall_lookup in Hempty.
    rewrite (Hempty p pl Hpl) in Ho. by apply elem_of_nil in Ho.
  - intros p pl Hpl. rewrite Forall_lookup in Hempty.
    rewrite (Hempty p pl Hpl). apply NoDup_nil_2.
Qed.

(** X16: whatever calls a client makes, in whatever order, and whichever
    of them raise, the links between operations and pipelines hold
    afterwards: both pointers name pipelines that exist; every listed
    operation exists and names the listing pipeline as its owner; every
    operation is listed by its owner; no list names an operation twice;
    and the argument list, the list of inputs and the kfp operation of
    every operation exist. *)
Theorem links_hold_after_any_calls pls cs :
  Forall (fun pl => ops_list pl = []) pls ->
  linked (run_calls cs (fresh_module pls)).
Proof.
  intros Hempty. by apply run_calls_linked, fresh_module_linked.
Qed.

(** X17: after any calls, an operation is listed by one pipeline only, and
    every fluent call on a listed operation succeeds and returns it. *)
Theorem listed_operations_are_configurable pls cs p pl o :
  Forall (fun pl => ops_list pl = []) pls ->
  pipelines (run_calls cs (fresh_module pls)) !! p = Some pl ->
  o ∈ ops_list pl ->
  (forall q pl', pipelines (run_calls cs (fresh_module pls)) !! q = Some pl' ->
                 o ∈ ops_list pl' -> q = p)
  /\ forall c, (configure o c (run_calls cs (fresh_module pls))).2 = Ok o.
Proof.
  intros Hempty Hpl Ho.
  pose proof (run_calls_linked cs _ (fresh_module_linked pls Hempty)) as L.
  destruct (linked_listed _ L p pl o Hpl Ho) as (h & Hh & Hown).
  split.
  - intros q pl' Hq Ho'.
    destruct (linked_listed _ L q pl' o Hq Ho') as (h' & Hh' & Hown').
    congruence.
  - intros c.
    destruct (linked_parts _ L o h Hh) as (_ & _ & Hop).
    apply lookup_lt_is_Some_2 in Hop as [ko Hko].
    by rewrite (configure_run o c _ h ko Hh Hko).
Qed.

(** ** Many registrations *)


End Registrar.

(** * The worked configuration *)

(** The scenario of the specification, with one pipeline parameter added:
    registering [train] in [demo_state] gives [trained_state]. *)
Example train_registration :
  HmlContainerOp_init sanitize_demo train demo_kwargs demo_state
  = (trained_state, Ok 0).
Proof. vm_compute. reflexivity. Qed.

Example py_str_values :
  py_str (LInt (-42)) = "-42" /\ py_str (LBool true) = "True"
  /\ py_str LNone = "None" /\ py_str (LStr "x") = "x".
Proof. vm_compute. done. Qed.

Example read_decimal_values :
  read_decimal "-42" = Some (-42)%Z /\ read_decimal "0" = Some 0%Z
  /\ read_decimal "1900" = Some 1900%Z
  /\ read_decimal "025" = None /\ read_decimal "-0" = None
  /\ read_decimal "+7" = None /\ read_decimal "" = None
  /\ read_decimal "2 5" = None /\ read_decimal "-" = None.
Proof. vm_compute. done. Qed.

Lemma demo_kwargs_wf : dict_wf demo_kwargs.
Proof. apply (bool_decide_unpack _). vm_compute. exact I. Defined.

Lemma arguments_follow_insertion_order_witness :
  (_current_pipeline demo_state = Some 0
   /\ pipelines demo_state !! 0 = Some demo_pipeline
   /\ dict_wf demo_kwargs
   /\ kwargs_live (kfp_ops demo_state) demo_kwargs = true)
  /\ exists st' self,
       HmlContainerOp_init sanitize_demo train demo_kwargs demo_state
       = (st', Ok self)
       /\ op_arguments st' self = Some train_arguments.
Proof.
  split; [repeat split; (reflexivity || exact demo_kwargs_wf)|].
  destruct (arguments_follow_insertion_order sanitize_demo train demo_kwargs
              demo_state 0 demo_pipeline eq_refl eq_refl demo_kwargs_wf eq_refl)
    as [(st' & self & args & Hinit & Hargs & Heq & _) _].
  exists st', self. split; [exact Hinit|].
  rewrite Hargs, Heq. vm_compute. reflexivity.
Defined.

Lemma arguments_and_inputs_lengths_witness :
  (_current_pipeline demo_state = Some 0
   /\ pipelines demo_state !! 0 = Some demo_pipeline
   /\ dict_wf demo_kwargs
   /\ kwargs_live (kfp_ops demo_state) demo_kwargs = true)
  /\ exists st' self args ins,
       HmlContainerOp_init sanitize_demo train demo_kwargs demo_state
       = (st', Ok self)
       /\ op_arguments st' self = Some args
       /\ op_inputs st' self = Some ins
       /\ length args = 9
       /\ length ins = 3.
Proof.
  split; [repeat split; (reflexivity || exact demo_kwargs_wf)|].
  exact (arguments_and_inputs_lengths sanitize_demo train demo_kwargs
           demo_state 0 demo_pipeline eq_refl eq_refl demo_kwargs_wf eq_refl).
Defined.

Lemma output_reference_pair_witness :
  (_current_pipeline demo_state = Some 0
   /\ pipelines demo_state !! 0 = Some demo_pipeline
   /\ dict_wf demo_kwargs
   /\ kwargs_live (kfp_ops demo_state) demo_kwargs = true
   /\ demo_kwargs !! 1 = Some ("model_params", VContainerOp 0)
   /\ kfp_ops demo_state !! 0 = Some prev_kfp_op)
  /\ exists st' self args,
       HmlContainerOp_init sanitize_demo train demo_kwargs demo_state
       = (st', Ok self)
       /\ op_arguments st' self = Some args
       /\ args !! 5 = Some (ArgStr "--model_params")
       /\ args !! 6
          = Some (ArgStr "{{tasks.prev-op.outputs.parameters.model_params}}").
Proof.
  split; [repeat split; (reflexivity || exact demo_kwargs_wf)|].
  exact (output_reference_pair sanitize_demo train demo_kwargs demo_state 0
           demo_pipeline 1 "model_params" 0 prev_kfp_op eq_refl eq_refl
           demo_kwargs_wf eq_refl eq_refl eq_refl).
Defined.

Lemma literal_pair_and_parameter_witness :
  (_current_pipeline demo_state = Some 0
   /\ pipelines demo_state !! 0 = Some demo_pipeline
   /\ dict_wf demo_kwargs
   /\ kwargs_live (kfp_ops demo_state) demo_kwargs = true
   /\ demo_kwargs !! 0 = Some ("data", VLit (LStr "s3://bucket/x")))
  /\ exists st' self args ins,
       HmlContainerOp_init sanitize_demo train demo_kwargs demo_state
       = (st', Ok self)
       /\ op_arguments st' self = Some args
       /\ op_inputs st' self = Some ins
       /\ args !! 3 = Some (ArgStr "--data")
       /\ args !! 4 = Some (ArgStr "{{inputs.parameters.data}}")
       /\ ins !! 0
          = Some (mkPipelineParam "data" None (Some (LStr "s3://bucket/x"))).
Proof.
  split; [repeat split; (reflexivity || exact demo_kwargs_wf)|].
  exact (literal_pair_and_parameter sanitize_demo train demo_kwargs demo_state
           0 demo_pipeline 0 "data" (LStr "s3://bucket/x") eq_refl eq_refl
           demo_kwargs_wf eq_refl eq_refl).
Defined.

Lemma pipeline_parameter_pair_witness :
  (_current_pipeline demo_state = Some 0
   /\ pipelines demo_state !! 0 = Some demo_pipeline
   /\ dict_wf demo_kwargs
   /\ kwargs_live (kfp_ops demo_state) demo_kwargs = true
   /\ demo_kwargs !! 2 = Some ("rounds", VPipelineParam rounds_param))
  /\ exists st' self args ins,
       HmlContainerOp_init sanitize_demo train demo_kwargs demo_state
       = (st', Ok self)
       /\ op_arguments st' self = Some args
       /\ op_inputs st' self = Some ins
       /\ args !! 7 = Some (ArgStr "--rounds")
       /\ args !! 8 = Some (ArgParam rounds_param)
       /\ ins !! 2 = Some rounds_param.
Proof.
  split; [repeat split; (reflexivity || exact demo_kwargs_wf)|].
  exact (pipeline_parameter_pair sanitize_demo train demo_kwargs demo_state 0
           demo_pipeline 2 "rounds" rounds_param eq_refl eq_refl
           demo_kwargs_wf eq_refl eq_refl).
Defined.

Lemma registration_without_pipeline_fails_witness :
  _current_pipeline idle_state = None
  /\ exists st',
       HmlContainerOp_init sanitize_demo train demo_kwargs idle_state
       = (st', Raise (AttributeError "'NoneType' object has no attribute 'name'"))
       /\ log st'
          = [(ERROR, "Unable to create HmlContainerOp, the `_pipeline_enter` function has not been called")]
       /\ param_lists st' = [[]]
       /\ arg_lists st' = []
       /\ hml_ops st' = []
       /\ kfp_ops st' = []
       /\ pipelines st' = [demo_pipeline; other_pipeline].
Proof.
  split; [reflexivity|].
  exact (registration_without_pipeline_fails sanitize_demo train demo_kwargs
           idle_state eq_refl).
Defined.

Lemma registration_not_idempotent_witness :
  (_current_pipeline demo_state = Some 0
   /\ pipelines demo_state !! 0 = Some demo_pipeline
   /\ dict_wf demo_kwargs
   /\ kwargs_live (kfp_ops demo_state) demo_kwargs = true)
  /\ exists st1 self1 st2 self2,
       HmlContainerOp_init sanitize_demo train demo_kwargs demo_state
       = (st1, Ok self1)
       /\ HmlContainerOp_init sanitize_demo train demo_kwargs st1
          = (st2, Ok self2)
       /\ ops_list <$> pipelines st2 !! 0 = Some [self1; self2]
       /\ self1 <> self2.
Proof.
  split; [repeat split; (reflexivity || exact demo_kwargs_wf)|].
  destruct (registration_not_idempotent sanitize_demo train demo_kwargs
              demo_state 0 demo_pipeline eq_refl eq_refl demo_kwargs_wf eq_refl)
    as (st1 & self1 & st2 & self2 & h1 & h2 & args1 & args2 & H1 & _ & _ & H2
        & H3 & H4 & _).
  exists st1, self1, st2, self2. repeat split; assumption.
Defined.

Lemma enter_exit_is_one_level_deep_witness :
  (pipelines idle_state !! 0 = Some demo_pipeline
   /\ pipelines idle_state !! 1 = Some other_pipeline)
  /\ exists st1 st2 st3 st4,
       _pipeline_enter 0 idle_state = (st1, Ok tt)
       /\ _pipeline_enter 1 st1 = (st2, Ok tt)
       /\ _pipeline_exit st2 = (st3, Ok tt)
       /\ _pipeline_exit st3 = (st4, Ok tt)
       /\ _current_pipeline st4 = Some 0
       /\ _current_pipeline idle_state = None.
Proof.
  split; [split; reflexivity|].
  destruct (enter_exit_is_one_level_deep idle_state 0 1 demo_pipeline
              other_pipeline eq_refl eq_refl)
    as (st1 & st2 & st3 & st4 & E1 & E2 & E3 & E4 & _ & _ & [C4 _] & _).
  exists st1, st2, st3, st4. repeat split; (assumption || reflexivity).
Defined.

Lemma with_env_binds_string_form_witness :
  (hml_ops trained_state !! 0 = Some train_op
   /\ kfp_ops trained_state !! op train_op = Some train_kfp_op)
  /\ exists st' c' d,
       with_env 0 "ROUNDS" (LInt (-25)) trained_state = (st', Ok 0)
       /\ kfp_ops st' !! 1 = Some c'
       /\ co_env c' = [mkV1EnvVar "ROUNDS" d]
       /\ read_decimal d = Some (-25)%Z.
Proof.
  split; [split; reflexivity|].
  destruct (with_env_binds_string_form 0 "ROUNDS" (LInt (-25)) trained_state
              train_op train_kfp_op eq_refl eq_refl)
    as (st' & c' & d & H1 & H2 & H3 & H4 & _).
  exists st', c', d. repeat split; assumption.
Defined.

Lemma fluent_calls_return_self_witness :
  (hml_ops trained_state !! 0 = Some train_op
   /\ kfp_ops trained_state !! op train_op = Some train_kfp_op)
  /\ (with_image 0 "" trained_state).2 = Ok 0
  /\ (with_command 0 "" 7 trained_state).2 = Ok 0
  /\ (with_secret 0 "" "" trained_state).2 = Ok 0
  /\ (with_gcp_auth use_gcp_secret_demo 0 "" trained_state).2 = Ok 0
  /\ (with_env 0 "" LNone trained_state).2 = Ok 0
  /\ (with_empty_dir 0 "" "" trained_state).2 = Ok 0.
Proof.
  split; [split; reflexivity|].
  destruct (fluent_calls_return_self use_gcp_secret_demo 0 trained_state
              train_op train_kfp_op eq_refl eq_refl)
    as (H1 & H2 & H3 & H4 & H5 & H6).
  rewrite H1, H2, H3, H4, H5, H6. repeat split.
Defined.

(** ** Witnesses of the further properties *)

Lemma chain_composes_effects_witness :
  (hml_ops trained_state !! 0 = Some train_op
   /\ kfp_ops trained_state !! op train_op = Some train_kfp_op)
  /\ exists st',
       chain use_gcp_secret_demo 0
         [FImage "gcr.io/x"; FEnv "ROUNDS" (LInt 25); FSecret "creds" "/secret"]
         trained_state = (st', Ok 0)
       /\ kfp_ops st' !! 1
          = Some (mkContainerOp "train" "gcr.io/x" "titanic" 1 (Some 0) (Some 0)
                    [mkV1Volume "creds" (V1SecretVolumeSource "creds")]
                    [mkV1VolumeMount "creds" "/secret"]
                    [mkV1EnvVar "ROUNDS" "25"])
       /\ kfp_ops st' !! 0 = Some prev_kfp_op.
Proof.
  split; [split; reflexivity|].
  destruct (chain_composes_effects use_gcp_secret_demo 0
              [FImage "gcr.io/x"; FEnv "ROUNDS" (LInt 25);
               FSecret "creds" "/secret"]
              trained_state train_op train_kfp_op eq_refl eq_refl)
    as (st' & H1 & H2 & H3 & _).
  exists st'. split; [exact H1|]. split.
  - refine (eq_trans H2 _). vm_compute. reflexivity.
  - rewrite (H3 0) by (simpl; lia). reflexivity.
Defined.

Lemma with_image_last_write_wins_witness :
  (hml_ops trained_state !! 0 = Some train_op
   /\ kfp_ops trained_state !! op train_op = Some train_kfp_op)
  /\ chain use_gcp_secret_demo 0 [FImage "a:1"; FImage "b:2"] trained_state
     = with_image 0 "b:2" trained_state.
Proof.
  split; [split; reflexivity|].
  exact (with_image_last_write_wins use_gcp_secret_demo 0 "a:1" "b:2"
           trained_state train_op train_kfp_op eq_refl eq_refl).
Defined.

Lemma with_env_accumulates_witness :
  (hml_ops trained_state !! 0 = Some train_op
   /\ kfp_ops trained_state !! op train_op = Some train_kfp_op)
  /\ exists st' o',
       chain use_gcp_secret_demo 0
         [FEnv "ROUNDS" (LInt 25); FEnv "ROUNDS" (LInt 50)] trained_state
       = (st', Ok 0)
       /\ kfp_ops st' !! 1 = Some o'
       /\ co_env o' = [mkV1EnvVar "ROUNDS" "25"; mkV1EnvVar "ROUNDS" "50"].
Proof.
  split; [split; reflexivity|].
  destruct (with_env_accumulates use_gcp_secret_demo 0 "ROUNDS" (LInt 25)
              (LInt 50) trained_state train_op train_kfp_op eq_refl eq_refl)
    as (st' & o' & H1 & H2 & H3).
  exists st', o'. split; [exact H1|]. split; [exact H2|].
  rewrite H3. vm_compute. reflexivity.
Defined.

Lemma with_image_commutes_witness :
  (hml_ops trained_state !! 0 = Some train_op
   /\ kfp_ops trained_state !! op train_op = Some train_kfp_op)
  /\ chain use_gcp_secret_demo 0 [FImage "a:1"; FEnv "K" LNone] trained_state
     = chain use_gcp_secret_demo 0 [FEnv "K" LNone; FImage "a:1"] trained_state.
Proof.
  split; [split; reflexivity|].
  destruct (with_image_commutes use_gcp_secret_demo 0 "a:1" trained_state
              train_op train_kfp_op eq_refl eq_refl) as (_ & H & _).
  exact (H "K" LNone).
Defined.

Lemma with_command_keeps_generated_arguments_witness :
  (hml_ops trained_state !! 0 = Some train_op
   /\ kfp_ops trained_state !! op train_op = Some train_kfp_op)
  /\ exists st' o',
       with_command 0 "python" 0 trained_state = (st', Ok 0)
       /\ kfp_ops st' !! 1 = Some o'
       /\ co_command o' = "python"
       /\ co_arguments o' = 0
       /\ op_arguments st' 0 = Some train_arguments.
Proof.
  split; [split; reflexivity|].
  destruct (with_command_keeps_generated_arguments 0 "python" 0 trained_state
              train_op train_kfp_op eq_refl eq_refl)
    as (st' & o' & H1 & H2 & H3 & H4 & H5).
  exists st', o'. repeat split; assumption.
Defined.

Lemma enter_exit_round_trip_witness :
  pipelines demo_state !! 1 = Some other_pipeline
  /\ exists st1 st2,
       _pipeline_enter 1 demo_state = (st1, Ok tt)
       /\ _pipeline_exit st1 = (st2, Ok tt)
       /\ _current_pipeline st2 = Some 0
       /\ _old_pipeline st2 = Some 0.
Proof.
  split; [reflexivity|].
  destruct (enter_exit_round_trip 1 other_pipeline demo_state eq_refl)
    as (st1 & st2 & H1 & H2 & H3 & H4 & _).
  exists st1, st2. repeat split; assumption.
Defined.

Lemma exit_without_enter_raises_witness :
  (_current_pipeline idle_state = None
   /\ pipelines idle_state !! 0 = Some demo_pipeline)
  /\ exists st1 st2,
       _pipeline_enter 0 idle_state = (st1, Ok tt)
       /\ _pipeline_exit st1 = (st2, Ok tt)
       /\ _pipeline_exit st2
          = (st2, Raise (AttributeError "'NoneType' object has no attribute 'name'")).
Proof.
  split; [split; reflexivity|].
  exact (exit_without_enter_raises 0 demo_pipeline idle_state eq_refl eq_refl).
Defined.

Lemma output_reference_bound_input_witness :
  (_current_pipeline demo_state = Some 0
   /\ pipelines demo_state !! 0 = Some demo_pipeline
   /\ dict_wf demo_kwargs
   /\ kwargs_live (kfp_ops demo_state) demo_kwargs = true
   /\ demo_kwargs !! 1 = Some ("model_params", VContainerOp 0)
   /\ kfp_ops demo_state !! 0 = Some prev_kfp_op)
  /\ exists st' self ins,
       HmlContainerOp_init sanitize_demo train demo_kwargs demo_state
       = (st', Ok self)
       /\ op_inputs st' self = Some ins
       /\ ins !! 1 = Some (mkPipelineParam "model_params" (Some "prev-op") None).
Proof.
  split; [repeat split; (reflexivity || exact demo_kwargs_wf)|].
  exact (output_reference_bound_input sanitize_demo train demo_kwargs
           demo_state 0 demo_pipeline 1 "model_params" 0 prev_kfp_op eq_refl
           eq_refl demo_kwargs_wf eq_refl eq_refl eq_refl).
Defined.

Lemma registration_builds_linked_pair_witness :
  (_current_pipeline demo_state = Some 0
   /\ pipelines demo_state !! 0 = Some demo_pipeline
   /\ dict_wf demo_kwargs
   /\ kwargs_live (kfp_ops demo_state) demo_kwargs = true)
  /\ exists st' self h o,
       HmlContainerOp_init sanitize_demo train demo_kwargs demo_state
       = (st', Ok self)
       /\ hml_ops st' !! self = Some h
       /\ kfp_ops st' !! op h = Some o
       /\ co_arguments o = arguments h
       /\ co_inputs o = Some (inputs h)
       /\ co_hml_op o = Some self.
Proof.
  split; [repeat split; (reflexivity || exact demo_kwargs_wf)|].
  destruct (registration_builds_linked_pair sanitize_demo train demo_kwargs
              demo_state 0 demo_pipeline eq_refl eq_refl demo_kwargs_wf eq_refl)
    as (st' & self & h & o & H1 & H2 & H3 & _ & _ & (H4 & H5 & H6) & _).
  exists st', self, h, o. repeat split; assumption.
Defined.

Lemma registration_only_adds_witness :
  (_current_pipeline demo_state = Some 0
   /\ pipelines demo_state !! 0 = Some demo_pipeline
   /\ dict_wf demo_kwargs
   /\ kwargs_live (kfp_ops demo_state) demo_kwargs = true)
  /\ exists st' self,
       HmlContainerOp_init sanitize_demo train demo_kwargs demo_state
       = (st', Ok self)
       /\ kfp_ops st' !! 0 = Some prev_kfp_op
       /\ pipelines st' !! 1 = Some other_pipeline
       /\ _current_pipeline st' = Some 0.
Proof.
  split; [repeat split; (reflexivity || exact demo_kwargs_wf)|].
  destruct (registration_only_adds sanitize_demo train demo_kwargs demo_state
              0 demo_pipeline eq_refl eq_refl demo_kwargs_wf eq_refl)
    as (st' & self & pl' & H1 & _ & H3 & _ & _ & H6 & _ & _ & H9 & _).
  exists st', self. split; [exact H1|]. split.
  - rewrite (H3 0) by (simpl; lia). reflexivity.
  - split; [|exact H9]. rewrite (H6 1) by lia. reflexivity.
Defined.

Lemma registration_logs_each_binding_witness :
  (_current_pipeline demo_state = Some 0
   /\ pipelines demo_state !! 0 = Some demo_pipeline
   /\ dict_wf demo_kwargs
   /\ kwargs_live (kfp_ops demo_state) demo_kwargs = true)
  /\ exists st' self,
       HmlContainerOp_init sanitize_demo train demo_kwargs demo_state
       = (st', Ok self)
       /\ length (log st') = 3
       /\ log st' !! 0
          = Some (INFO, "Binding input value for train -> data: s3://bucket/x").
Proof.
  split; [repeat split; (reflexivity || exact demo_kwargs_wf)|].
  destruct (registration_logs_each_binding sanitize_demo train demo_kwargs
              demo_state 0 demo_pipeline eq_refl eq_refl demo_kwargs_wf eq_refl)
    as (st' & self & H1 & H2 & _ & _ & H5).
  exists st', self. split; [exact H1|]. split; [exact H2|].
  exact (H5 0 "data" (LStr "s3://bucket/x") eq_refl).
Defined.

Lemma literal_kwargs_wf : dict_wf literal_kwargs.
Proof. apply (bool_decide_unpack _). vm_compute. exact I. Defined.

Lemma registration_goes_to_innermost_witness :
  (0 <> 1
   /\ pipelines idle_state !! 0 = Some demo_pipeline
   /\ pipelines idle_state !! 1 = Some other_pipeline
   /\ dict_wf literal_kwargs
   /\ kwargs_live (kfp_ops idle_state) literal_kwargs = true)
  /\ exists st1 st2 st3 self,
       _pipeline_enter 0 idle_state = (st1, Ok tt)
       /\ _pipeline_enter 1 st1 = (st2, Ok tt)
       /\ HmlContainerOp_init sanitize_demo train literal_kwargs st2
          = (st3, Ok self)
       /\ ops_list <$> pipelines st3 !! 1 = Some [self]
       /\ pipelines st3 !! 0 = Some demo_pipeline.
Proof.
  split; [repeat split; (reflexivity || exact literal_kwargs_wf || lia)|].
  destruct (registration_goes_to_innermost sanitize_demo train literal_kwargs
              idle_state 0 1 demo_pipeline other_pipeline ltac:(lia) eq_refl
              eq_refl literal_kwargs_wf eq_refl)
    as (st1 & st2 & st3 & self & st4 & st5 & self' & H1 & H2 & H3 & H4 & H5 & _).
  exists st1, st2, st3, self. repeat split; assumption.
Defined.

Lemma output_reference_is_by_name_witness :
  (_current_pipeline twin_state = Some 0
   /\ pipelines twin_state !! 0 = Some demo_pipeline
   /\ dict_wf demo_kwargs
   /\ kwargs_live (kfp_ops twin_state) demo_kwargs = true
   /\ demo_kwargs !! 1 = Some ("model_params", VContainerOp 0)
   /\ kfp_ops twin_state !! 0 = Some prev_kfp_op
   /\ kfp_ops twin_state !! 1 = Some twin_kfp_op
   /\ co_name prev_kfp_op = co_name twin_kfp_op)
  /\ exists st1 self1 st2 self2,
       HmlContainerOp_init sanitize_demo train demo_kwargs twin_state
       = (st1, Ok self1)
       /\ HmlContainerOp_init sanitize_demo train
            (<[1 := ("model_params", VContainerOp 1)]> demo_kwargs) twin_state
          = (st2, Ok self2)
       /\ op_arguments st2 self2 = op_arguments st1 self1
       /\ op_inputs st2 self2 = op_inputs st1 self1.
Proof.
  split; [repeat split; (reflexivity || exact demo_kwargs_wf)|].
  exact (output_reference_is_by_name sanitize_demo train demo_kwargs
           twin_state 0 demo_pipeline 1 "model_params" 0 1 prev_kfp_op
           twin_kfp_op eq_refl eq_refl demo_kwargs_wf eq_refl eq_refl eq_refl
           eq_refl eq_refl).
Defined.

Lemma invoke_calls_function_with_given_kwargs_witness :
  (_current_pipeline demo_state = Some 0
   /\ pipelines demo_state !! 0 = Some demo_pipeline
   /\ dict_wf demo_kwargs
   /\ kwargs_live (kfp_ops demo_state) demo_kwargs = true)
  /\ exists st' self,
       HmlContainerOp_init sanitize_demo train demo_kwargs demo_state
       = (st', Ok self)
       /\ invoke nat call_demo self st' = (st', Ok 3).
Proof.
  split; [repeat split; (reflexivity || exact demo_kwargs_wf)|].
  destruct (invoke_calls_function_with_given_kwargs sanitize_demo
              use_gcp_secret_demo nat call_demo train demo_kwargs demo_state 0
              demo_pipeline eq_refl eq_refl demo_kwargs_wf eq_refl)
    as (st' & self & H1 & H2 & _).
  exists st', self. split; [exact H1|]. rewrite H2. reflexivity.
Defined.

Lemma demo_pipelines_empty :
  Forall (fun pl => ops_list pl = []) [demo_pipeline; other_pipeline].
Proof. apply (bool_decide_unpack _). vm_compute. exact I. Defined.

Lemma links_hold_after_any_calls_witness :
  Forall (fun pl => ops_list pl = []) [demo_pipeline; other_pipeline]
  /\ linked (run_calls sanitize_demo use_gcp_secret_demo demo_session
               (fresh_module [demo_pipeline; other_pipeline])).
Proof.
  split; [exact demo_pipelines_empty|].
  exact (links_hold_after_any_calls sanitize_demo use_gcp_secret_demo
           [demo_pipeline; other_pipeline] demo_session demo_pipelines_empty).
Defined.

Lemma listed_operations_are_configurable_witness :
  (Forall (fun pl => ops_list pl = []) [demo_pipeline; other_pipeline]
   /\ pipelines (run_calls sanitize_demo use_gcp_secret_demo demo_session
                   (fresh_module [demo_pipeline; other_pipeline])) !! 0
      = Some (mkHmlPipeline "demo" "gcr.io/demo/titanic:latest" "titanic" [0; 1])
   /\ 1 ∈ [0; 1])
  /\ (configure use_gcp_secret_demo 1 (FGcpAuth "sa")
        (run_calls sanitize_demo use_gcp_secret_demo demo_session
           (fresh_module [demo_pipeline; other_pipeline]))).2 = Ok 1.
Proof.
  assert (Hin : 1 ∈ [0; 1]) by (apply (bool_decide_unpack _); vm_compute; exact I).
  split; [repeat split; (reflexivity || exact demo_pipelines_empty || exact Hin)|].
  destruct (listed_operations_are_configurable sanitize_demo
              use_gcp_secret_demo [demo_pipeline; other_pipeline] demo_session
              0 (mkHmlPipeline "demo" "gcr.io/demo/titanic:latest" "titanic"
                   [0; 1]) 1 demo_pipelines_empty eq_refl Hin) as [_ H].
  exact (H (FGcpAuth "sa")).
Defined.

